(** * MarkUpDownBot: format detection, error locator and send-method lookup

    Shallow embedding of [bot.py] and [messages.py].  A Python [str] is a
    list of Unicode codepoints ([pystr]); a [bytes] value is a list of
    integers in [0, 255]. *)

From Stdlib Require Import String Ascii ZArith List Bool Lia.
Import ListNotations.
Open Scope Z_scope.

(** ** Python strings *)

Definition pystr := list Z.
Definition pybytes := list Z.

(** ASCII literal to codepoints. *)
Definition py (s : string) : pystr :=
  map (fun a => Z.of_nat (nat_of_ascii a)) (list_ascii_of_string s).

(** [s.count(c)] for a one-character [c]. *)
Definition py_count (c : Z) (s : pystr) : Z :=
  Z.of_nat (length (filter (Z.eqb c) s)).

(** Python index normalisation used by slicing: negative indices count from
    the end, everything is clamped into [0, len]. *)
Definition py_norm_index (len i : Z) : Z :=
  if i <? 0 then Z.max 0 (len + i) else Z.min i len.

(** [l[start:stop]] *)
Definition py_slice {A} (l : list A) (start stop : Z) : list A :=
  let len := Z.of_nat (length l) in
  let a := py_norm_index len start in
  let b := py_norm_index len stop in
  firstn (Z.to_nat (b - a)) (skipn (Z.to_nat a) l).

(** [l[:stop]] *)
Definition py_slice_to {A} (l : list A) (stop : Z) : list A :=
  py_slice l 0 stop.

(** [s.replace(a, b)] for one-character [a] and [b]. *)
Definition py_replace_char (a b : Z) (s : pystr) : pystr :=
  map (fun c => if Z.eqb c a then b else c) s.

(** [' ' * n]: a non-positive [n] gives the empty string. *)
Definition py_repeat (c : Z) (n : Z) : pystr := repeat c (Z.to_nat n).

(** ** UTF-8 ([str.encode()] and [bytes.decode()], strict) *)

(** A codepoint a [str] may hold. *)
Definition is_codepoint (c : Z) : bool := (0 <=? c) && (c <=? 0x10FFFF).

(** Surrogates cannot be encoded: [str.encode()] raises
    [UnicodeEncodeError] on them. *)
Definition is_surrogate (c : Z) : bool := (0xD800 <=? c) && (c <=? 0xDFFF).

Definition utf8_encode_char (c : Z) : option pybytes :=
  if is_surrogate c then None
  else if c <? 0x80 then Some [c]
  else if c <? 0x800 then Some [0xC0 + c / 64; 0x80 + c mod 64]
  else if c <? 0x10000 then
    Some [0xE0 + c / 4096; 0x80 + (c / 64) mod 64; 0x80 + c mod 64]
  else Some [0xF0 + c / 262144; 0x80 + (c / 4096) mod 64;
             0x80 + (c / 64) mod 64; 0x80 + c mod 64].

Fixpoint utf8_encode (s : pystr) : option pybytes :=
  match s with
  | [] => Some []
  | c :: s' =>
      match utf8_encode_char c, utf8_encode s' with
      | Some b, Some bs => Some (b ++ bs)
      | _, _ => None
      end
  end.

Definition is_cont (b : Z) : bool := (0x80 <=? b) && (b <? 0xC0).

(** Strict decoder: continuation bytes checked, overlong forms, surrogates
    and values above U+10FFFF rejected, a truncated sequence rejected. *)
Fixpoint utf8_decode (bs : pybytes) : option pystr :=
  match bs with
  | [] => Some []
  | b1 :: r1 =>
      if b1 <? 0x80 then option_map (cons b1) (utf8_decode r1)
      else if (0xC0 <=? b1) && (b1 <? 0xE0) then
        match r1 with
        | b2 :: r2 =>
            let c := (b1 - 0xC0) * 64 + (b2 - 0x80) in
            if is_cont b2 && (0x80 <=? c)
            then option_map (cons c) (utf8_decode r2) else None
        | [] => None
        end
      else if (0xE0 <=? b1) && (b1 <? 0xF0) then
        match r1 with
        | b2 :: b3 :: r3 =>
            let c := (b1 - 0xE0) * 4096 + (b2 - 0x80) * 64 + (b3 - 0x80) in
            if is_cont b2 && is_cont b3 && (0x800 <=? c) && negb (is_surrogate c)
            then option_map (cons c) (utf8_decode r3) else None
        | _ => None
        end
      else if (0xF0 <=? b1) && (b1 <? 0xF8) then
        match r1 with
        | b2 :: b3 :: b4 :: r4 =>
            let c := (b1 - 0xF0) * 262144 + (b2 - 0x80) * 4096
                     + (b3 - 0x80) * 64 + (b4 - 0x80) in
            if is_cont b2 && is_cont b3 && is_cont b4
               && (0x10000 <=? c) && (c <=? 0x10FFFF)
            then option_map (cons c) (utf8_decode r4) else None
        | _ => None
        end
      else None
  end.

(** ** Python builtins used by [get_error_caption] *)

Definition nl : Z := 10.
Definition backslash : Z := 92.
Definition space : Z := 32.

(** [str.isspace()]: the codepoints Python treats as whitespace. *)
Definition py_isspace (c : Z) : bool :=
  ((9 <=? c) && (c <=? 13)) || ((28 <=? c) && (c <=? 32)) || (c =? 133)
  || (c =? 160) || (c =? 5760) || ((8192 <=? c) && (c <=? 8202))
  || (c =? 8232) || (c =? 8233) || (c =? 8239) || (c =? 8287) || (c =? 12288).

Fixpoint py_lstrip (s : pystr) : pystr :=
  match s with
  | c :: s' => if py_isspace c then py_lstrip s' else s
  | [] => []
  end.

(** [s.strip()] *)
Definition py_strip (s : pystr) : pystr := rev (py_lstrip (rev (py_lstrip s))).

Definition is_digit (c : Z) : bool := (48 <=? c) && (c <=? 57).

(** Decimal digits with single underscores between digits, as [int()]
    accepts them.  [prev_digit] records that the last character read was a
    digit (so an underscore or the end of input is allowed). *)
Fixpoint py_parse_digits (s : pystr) (acc : Z) (prev_digit : bool) : option Z :=
  match s with
  | [] => if prev_digit then Some acc else None
  | c :: r =>
      if is_digit c then py_parse_digits r (acc * 10 + (c - 48)) true
      else if (c =? 95) && prev_digit then py_parse_digits r acc false
      else None
  end.

(** [int(s)] on a string, base 10 ([None] = [ValueError]).  Only ASCII
    digits are modelled; [int()] also strips surrounding whitespace. *)
Definition py_int (s : pystr) : option Z :=
  match py_strip s with
  | 43 :: r => py_parse_digits r 0 false
  | 45 :: r => option_map Z.opp (py_parse_digits r 0 false)
  | t => py_parse_digits t 0 false
  end.

Fixpoint is_prefix (p s : pystr) : bool :=
  match p, s with
  | [], _ => true
  | a :: p', b :: s' => (a =? b) && is_prefix p' s'
  | _ :: _, [] => false
  end.

(** Start index of the rightmost occurrence of a non-empty [pat]. *)
Fixpoint last_index (pat s : pystr) : option nat :=
  match s with
  | [] => None
  | _ :: s' =>
      match last_index pat s' with
      | Some i => Some (S i)
      | None => if is_prefix pat s then Some O else None
      end
  end.

(** [s.rsplit(sep, maxsplit=1)] for a separator that cannot overlap itself. *)
Definition py_rsplit1 (sep s : pystr) : list pystr :=
  match last_index sep s with
  | Some i => [firstn i s; skipn (i + length sep) s]
  | None => [s]
  end.

Fixpoint py_str_digits (fuel : nat) (n : Z) : pystr :=
  match fuel with
  | O => []
  | S f => if n <? 10 then [48 + n] else py_str_digits f (n / 10) ++ [48 + n mod 10]
  end.

(** [str(n)] / [f'{n}'] for an integer. *)
Definition py_str_int (n : Z) : pystr :=
  let digits m := py_str_digits (S (Z.to_nat (Z.log2_up (m + 1)))) m in
  if n <? 0 then 45 :: digits (- n) else digits n.

(** ** Exceptions *)

Inductive exn :=
| ValueError
| UnicodeEncodeError
| UnicodeDecodeError
| AttributeError
| TypeError.

(** [except ValueError] catches the class and its subclasses;
    [UnicodeEncodeError] and [UnicodeDecodeError] derive from
    [UnicodeError], itself a subclass of [ValueError]. *)
Definition isinstance_ValueError (e : exn) : bool :=
  match e with
  | ValueError => true
  | UnicodeEncodeError => true
  | UnicodeDecodeError => true
  | AttributeError => false
  | TypeError => false
  end.

Inductive result (A : Type) :=
| Ok (a : A)
| Raise (e : exn).
Arguments Ok {A} a.
Arguments Raise {A} e.

Definition bind {A B} (m : result A) (f : A -> result B) : result B :=
  match m with
  | Ok a => f a
  | Raise e => Raise e
  end.

Notation "x <- m ;; k" := (bind m (fun x => k)) (at level 61, m at next level, right associativity).

Definition raise_on_none {A} (e : exn) (o : option A) : result A :=
  match o with
  | Some a => Ok a
  | None => Raise e
  end.

(** ** aiogram's markdown helpers, with this repository's patch *)

Module markdown.

(** [aiogram.utils.markdown.LIST_MD_SYMBOLS] *)
Definition LIST_MD_SYMBOLS : pystr := py "*_`[".

Definition backtick : Z := nth 2 LIST_MD_SYMBOLS 0.

(** [aiogram.utils.markdown.MD_SYMBOLS] as shipped by aiogram. *)
Definition MD_SYMBOLS_aiogram : list (pystr * pystr) :=
  [ (py "*", py "*"); (py "_", py "_"); (py "`", py "`");
    (py "```" ++ [nl], [nl] ++ py "```");
    (py "<b>", py "</b>"); (py "<i>", py "</i>");
    (py "<code>", py "</code>"); (py "<pre>", py "</pre>") ].

(** bot.py lines 61-63:
    [MD_SYMBOLS[:3] + ((LIST_MD_SYMBOLS[2] * 3 + '\n', LIST_MD_SYMBOLS[2] * 3),) + MD_SYMBOLS[4:]] *)
Definition MD_SYMBOLS : list (pystr * pystr) :=
  firstn 3 MD_SYMBOLS_aiogram
  ++ [(repeat backtick 3 ++ [nl], repeat backtick 3)]
  ++ skipn 4 MD_SYMBOLS_aiogram.

Definition _md (s : pystr) (symbols : pystr * pystr) : pystr :=
  fst symbols ++ s ++ snd symbols.

Definition pre_with (symbols : list (pystr * pystr)) (s : pystr) : pystr :=
  _md s (nth 3 symbols ([], [])).

(** [pre(s)] and [code(s)] after the patch. *)
Definition pre (s : pystr) : pystr := pre_with MD_SYMBOLS s.
Definition code (s : pystr) : pystr := _md s (nth 2 MD_SYMBOLS ([], [])).
Definition bold (s : pystr) : pystr := _md s (nth 0 MD_SYMBOLS ([], [])).
Definition italic (s : pystr) : pystr := _md s (nth 1 MD_SYMBOLS ([], [])).

(** [link(title, url)]: ['[{0}]({1})'.format(title, url)] *)
Definition link (title url : pystr) : pystr :=
  py "[" ++ title ++ py "](" ++ url ++ py ")".

(** [s.replace(a, b)] for a one-character [a]. *)
Definition py_replace1 (a : Z) (b : pystr) (s : pystr) : pystr :=
  flat_map (fun c => if c =? a then b else [c]) s.


(** [escape_md(s)]:
    [s.replace('_', '\\_').replace('*', '\\*').replace('`', '\\`').replace('[', '\\[')] *)
Definition escape_md (s : pystr) : pystr :=
  py_replace1 91 [backslash; 91]
    (py_replace1 96 [backslash; 96]
       (py_replace1 42 [backslash; 42]
          (py_replace1 95 [backslash; 95] s))).

(** [HTML_QUOTES_MAP] *)
Definition html_quote (c : Z) : pystr :=
  if c =? 60 then py "&lt;"
  else if c =? 62 then py "&gt;"
  else if c =? 38 then py "&amp;"
  else if c =? 34 then py "&quot;"
  else [c].

(** [quote_html(s)]: each symbol replaced through [HTML_QUOTES_MAP]. *)
Definition quote_html (s : pystr) : pystr := flat_map html_quote s.

(** [hbold], [hitalic], [hcode], [hpre]:
    [_md(quote_html(_join(content, sep=sep)), symbols=MD_SYMBOLS[4..7])] over the star-args [content];
    the bot's [MD_SYMBOLS] keeps aiogram's entries from index 4 on. *)
Definition hbold (s : pystr) : pystr := _md (quote_html s) (nth 4 MD_SYMBOLS ([], [])).
Definition hitalic (s : pystr) : pystr := _md (quote_html s) (nth 5 MD_SYMBOLS ([], [])).
Definition hcode (s : pystr) : pystr := _md (quote_html s) (nth 6 MD_SYMBOLS ([], [])).
Definition hpre (s : pystr) : pystr := _md (quote_html s) (nth 7 MD_SYMBOLS ([], [])).

(** [hlink(title, url)]: the anchor [<a href=URL>TITLE</a>] with the URL
    between double quotes (codepoint 34) and the title passed through
    [quote_html]. *)
Definition hlink (title url : pystr) : pystr :=
  py "<a href=" ++ [34] ++ url ++ [34] ++ py ">" ++ quote_html title ++ py "</a>".

End markdown.

(** ** [get_error_caption] (bot.py lines 66-95) *)

(** The [try] block up to the codepoint offset (lines 75-78). *)
Definition chars_offset (bad_text : pystr) (offset : Z) : result Z :=
  encoded <- raise_on_none UnicodeEncodeError (utf8_encode bad_text) ;;
  decoded <- raise_on_none UnicodeDecodeError
               (utf8_decode (py_slice_to encoded offset)) ;;
  Ok (Z.of_nat (length decoded)).

(** [_, offset = exc_message.rsplit('offset', maxsplit=1)];
    [offset = int(offset.strip())]. *)
Definition parse_offset (exc_message : pystr) : result Z :=
  match py_rsplit1 (py "offset") exc_message with
  | [_; o] => raise_on_none ValueError (py_int (py_strip o))
  | _ => Raise ValueError
  end.

Definition error_offset (bad_text exc_message : pystr) : result Z :=
  n <- parse_offset exc_message ;;
  chars_offset bad_text n.

Definition chars_before_of (offset : Z) : Z :=
  if offset <? 25 then offset else 25.

Definition bad_line_of (bad_text : pystr) (offset : Z) : pystr :=
  let chars_before := chars_before_of offset in
  let bad_char := offset + 1 in
  let start := bad_char - chars_before in
  py_slice (py_replace_char nl space bad_text) start (offset + 5).

Definition pointer_line_of (offset : Z) : pystr :=
  py_repeat space (chars_before_of offset - 1) ++ py "^".

Definition caption_of (bad_text : pystr) (offset : Z) : pystr :=
  py ":" ++ [nl; nl] ++ markdown.pre (bad_line_of bad_text offset)
  ++ [nl] ++ markdown.code (pointer_line_of offset).

Definition get_error_caption (bad_text exc_message : pystr) : result pystr :=
  match error_offset bad_text exc_message with
  | Raise e =>
      (* logger.exception(e) *)
      if isinstance_ValueError e then Ok exc_message else Raise e
  | Ok offset =>
      let exc_message := exc_message ++ py ", (chars offset "
                         ++ py_str_int offset ++ py ")" in
      Ok (exc_message ++ caption_of bad_text offset)
  end.

(** ** Messages and entities (aiogram [types.Message], [types.MessageEntity]) *)

Record MessageEntity := {
  etype : pystr;
  eoffset : Z;
  elength : Z;
  eurl : option pystr;
  euser_url : option pystr
}.

(** A message's text and entities.  Entity offsets are in UTF-16 units in
    Telegram; for text in the Basic Multilingual Plane they coincide with
    codepoint indices, which is what this model uses. *)
Record Message := {
  text : option pystr;
  entities : list MessageEntity
}.

(** The two patches of bot.py lines 56-57 as a rendering configuration:
    [dont_escape_md] replaces [escape_md] by the identity and
    [dont_change_plain_urls] sets [MessageEntityType.URL] to ['NOT URL']. *)
Record RenderConfig := {
  escape_disabled : bool;
  URL : pystr
}.

Definition with_dont_change_plain_urls : RenderConfig :=
  {| escape_disabled := false; URL := py "NOT URL" |}.
Definition with_both_patches : RenderConfig :=
  {| escape_disabled := true; URL := py "NOT URL" |}.

Definition escape_fn (cfg : RenderConfig) : pystr -> pystr :=
  if escape_disabled cfg then fun s => s else markdown.escape_md.

Definition pystr_eqb (a b : pystr) : bool := if list_eq_dec Z.eq_dec a b then true else false.

(** [MessageEntity.get_text] *)
Definition get_text (e : MessageEntity) (t : pystr) : pystr :=
  py_slice t (eoffset e) (eoffset e + elength e).

(** [MessageEntity.parse(text, as_html=False)] *)
Definition entity_parse (cfg : RenderConfig) (e : MessageEntity) (t : pystr) : pystr :=
  let entity_text := get_text e t in
  if pystr_eqb (etype e) (py "bold") then markdown.bold entity_text
  else if pystr_eqb (etype e) (py "italic") then markdown.italic entity_text
  else if pystr_eqb (etype e) (py "pre") then markdown.pre entity_text
  else if pystr_eqb (etype e) (py "code") then markdown.code entity_text
  else if pystr_eqb (etype e) (URL cfg) then markdown.link entity_text entity_text
  else if pystr_eqb (etype e) (py "text_link") then
    markdown.link entity_text (match eurl e with Some u => u | None => py "None" end)
  else match euser_url e with
       | Some u => if pystr_eqb (etype e) (py "text_mention")
                   then markdown.link entity_text u else entity_text
       | None => entity_text
       end.

(** [sorted(entities, key=lambda item: item.offset)] (stable). *)
Fixpoint insert_by_offset (e : MessageEntity) (l : list MessageEntity) : list MessageEntity :=
  match l with
  | [] => [e]
  | x :: l' => if eoffset e <=? eoffset x then e :: l else x :: insert_by_offset e l'
  end.

Fixpoint sort_by_offset (l : list MessageEntity) : list MessageEntity :=
  match l with
  | [] => []
  | x :: l' => insert_by_offset x (sort_by_offset l')
  end.

(** The loop of [parse_entities]: [result += quote_fn(text[offset:entity.offset]) + entity_text];
    [offset = entity.offset + entity.length]. *)
Fixpoint render_entities (cfg : RenderConfig) (t : pystr) (offset : Z)
    (es : list MessageEntity) : pystr :=
  match es with
  | [] => escape_fn cfg (py_slice t offset (Z.of_nat (length t)))
  | e :: es' =>
      escape_fn cfg (py_slice t offset (eoffset e)) ++ entity_parse cfg e t
      ++ render_entities cfg t (eoffset e + elength e) es'
  end.

(** [Message.md_text] = [parse_entities(as_html=False)]; the text is
    [self.text or self.caption] (no caption in this model). *)
Definition md_text (cfg : RenderConfig) (m : Message) : result pystr :=
  match text m with
  | None | Some [] => Raise TypeError
  | Some t =>
      match entities m with
      | [] => Ok (escape_fn cfg t)
      | es => Ok (render_entities cfg t 0 (sort_by_offset es))
      end
  end.

(** [MessageEntity.parse(text, as_html=True)] *)
Definition entity_parse_html (cfg : RenderConfig) (e : MessageEntity) (t : pystr) : pystr :=
  let entity_text := get_text e t in
  if pystr_eqb (etype e) (py "bold") then markdown.hbold entity_text
  else if pystr_eqb (etype e) (py "italic") then markdown.hitalic entity_text
  else if pystr_eqb (etype e) (py "pre") then markdown.hpre entity_text
  else if pystr_eqb (etype e) (py "code") then markdown.hcode entity_text
  else if pystr_eqb (etype e) (URL cfg) then markdown.hlink entity_text entity_text
  else if pystr_eqb (etype e) (py "text_link") then
    markdown.hlink entity_text (match eurl e with Some u => u | None => py "None" end)
  else match euser_url e with
       | Some u => if pystr_eqb (etype e) (py "text_mention")
                   then markdown.hlink entity_text u else entity_text
       | None => entity_text
       end.

(** The loop of [parse_entities(as_html=True)], with [quote_fn = quote_html]. *)
Fixpoint render_entities_html (cfg : RenderConfig) (t : pystr) (offset : Z)
    (es : list MessageEntity) : pystr :=
  match es with
  | [] => markdown.quote_html (py_slice t offset (Z.of_nat (length t)))
  | e :: es' =>
      markdown.quote_html (py_slice t offset (eoffset e)) ++ entity_parse_html cfg e t
      ++ render_entities_html cfg t (eoffset e + elength e) es'
  end.

(** [Message.html_text] = [parse_entities(as_html=True)] (bot.py line 180). *)
Definition html_text (cfg : RenderConfig) (m : Message) : result pystr :=
  match text m with
  | None | Some [] => Raise TypeError
  | Some t =>
      match entities m with
      | [] => Ok (markdown.quote_html t)
      | es => Ok (render_entities_html cfg t 0 (sort_by_offset es))
      end
  end.

(** ** [detect_message_text_formatting] (bot.py lines 98-124)

    The escaping helpers and the rendering of the message under both patches
    ([message.md_text] inside [with dont_change_plain_urls, dont_escape_md])
    are the library's; the detector is stated for any of them.  The rendering
    may raise, and its exception leaves the detector. *)

Section Detection.

Variable escape_md : pystr -> pystr.
Variable quote_html : pystr -> pystr.
Variable md_text_probe : Message -> result pystr.

Definition backslash_count (s : pystr) : Z := py_count 92 s.
Definition ampersand_count (s : pystr) : Z := py_count 38 s.

Definition escaped_md_of (raw : pystr) : Z :=
  backslash_count (escape_md raw) - backslash_count raw.
Definition escaped_html_of (raw : pystr) : Z :=
  ampersand_count (quote_html raw) - ampersand_count raw.
Definition escaped_with_entities_of (with_entities raw : pystr) : Z :=
  backslash_count (escape_md with_entities) - backslash_count raw.

Definition detect_message_text_formatting (m : Message) : result (option pystr) :=
  match text m with
  | None => Raise AttributeError  (* None.count('\\') *)
  | Some raw_text =>
      let before_escape_md := backslash_count raw_text in
      let before_escape_html := ampersand_count raw_text in
      let escaped_md := backslash_count (escape_md raw_text) - before_escape_md in
      let escaped_html := ampersand_count (quote_html raw_text) - before_escape_html in
      with_entities <- md_text_probe m ;;
      let escaped_with_entities :=
        backslash_count (escape_md with_entities) - before_escape_md in
      if Z.max escaped_html escaped_md <? escaped_with_entities then Ok None
      else if escaped_md <? escaped_html then Ok (Some (py "html"))
      else Ok (Some (py "markdown"))
  end.

End Detection.

(** The detector with aiogram's helpers: [message.md_text] under both
    patches. *)
Definition aiogram_probe (m : Message) : result pystr :=
  md_text with_both_patches m.

Definition detect_aiogram : Message -> result (option pystr) :=
  detect_message_text_formatting markdown.escape_md markdown.quote_html aiogram_probe.

(** ** Reading a fenced block back

    Modelled from the spec (the Telegram-side parser is not part of this
    repository): the block content is everything between the opening
    ["```\n"] and the closing ["```"], so a trailing newline of the content
    is part of it. *)

Fixpoint strip_suffix (suf s : pystr) : option pystr :=
  if pystr_eqb s suf then Some []
  else match s with
       | [] => None
       | c :: s' => option_map (cons c) (strip_suffix suf s')
       end.

Definition fence_open : pystr := py "```" ++ [nl].
Definition fence_close : pystr := py "```".

Definition read_fenced_block (s : pystr) : option pystr :=
  if is_prefix fence_open s
  then strip_suffix fence_close (skipn (length fence_open) s)
  else None.

(** A message made of one code block. *)
Definition pre_entity (len : Z) : MessageEntity :=
  {| etype := py "pre"; eoffset := 0; elength := len; eurl := None; euser_url := None |}.

Definition code_block_message (content : pystr) : Message :=
  {| text := Some content; entities := [pre_entity (Z.of_nat (length content))] |}.

(** Serialize with the repository's configuration, then read the block back. *)
Definition code_block_round_trip (m : Message) : option Message :=
  match md_text with_dont_change_plain_urls m with
  | Ok s => option_map code_block_message (read_fenced_block s)
  | Raise _ => None
  end.

(** ** Markdown escapes read back

    The inverse of [escape_md] on plain text: a backslash followed by one of
    [_ * ` \[] stands for that character. *)

Definition md_special (c : Z) : bool := (c =? 95) || (c =? 42) || (c =? 96) || (c =? 91).

Fixpoint unescape_md (s : pystr) : pystr :=
  match s with
  | c :: t =>
      if c =? backslash then
        match t with
        | d :: r => if md_special d then d :: unescape_md r else c :: unescape_md t
        | [] => [c]
        end
      else c :: unescape_md t
  | [] => []
  end.

(** Reading quoted HTML back (spec-modelled, like [unescape_md]): the
    character references [&lt;], [&gt;], [&amp;] and [&quot;] are replaced
    by the characters they name. *)
Fixpoint unquote_html (s : pystr) : pystr :=
  match s with
  | [] => []
  | c :: r =>
      if c =? 38 then
        match r with
        | a :: b :: d :: r3 =>
            if (a =? 108) && (b =? 116) && (d =? 59) then 60 :: unquote_html r3
            else if (a =? 103) && (b =? 116) && (d =? 59) then 62 :: unquote_html r3
            else match r3 with
                 | e :: r4 =>
                     if (a =? 97) && (b =? 109) && (d =? 112) && (e =? 59)
                     then 38 :: unquote_html r4
                     else match r4 with
                          | f :: r5 =>
                              if (a =? 113) && (b =? 117) && (d =? 111) && (e =? 116)
                                 && (f =? 59)
                              then 34 :: unquote_html r5
                              else c :: unquote_html r
                          | [] => c :: unquote_html r
                          end
                 | [] => c :: unquote_html r
                 end
        | _ => c :: unquote_html r
        end
      else c :: unquote_html r
  end.

(** Well-formed annotations: inside the text, non-empty, and any two either
    disjoint or nested. *)
Definition entity_in (t : pystr) (e : MessageEntity) : bool :=
  (0 <=? eoffset e) && (0 <? elength e) && (eoffset e + elength e <=? Z.of_nat (length t)).

Definition disjoint_or_nested (e1 e2 : MessageEntity) : bool :=
  let a1 := eoffset e1 in let b1 := eoffset e1 + elength e1 in
  let a2 := eoffset e2 in let b2 := eoffset e2 + elength e2 in
  (b1 <=? a2) || (b2 <=? a1) || ((a1 <=? a2) && (b2 <=? b1)) || ((a2 <=? a1) && (b1 <=? b2)).

Definition well_formed (m : Message) : bool :=
  match text m with
  | Some t =>
      negb (pystr_eqb t []) && forallb (entity_in t) (entities m)
      && forallb (fun e1 => forallb (disjoint_or_nested e1) (entities m)) (entities m)
  | None => false
  end.

(** Two well-formed messages with the same markdown rendering: ["ab"] with
    a code annotation on each character, and ["a``b"] with one code
    annotation. *)
Definition code_entity (off len : Z) : MessageEntity :=
  {| etype := py "code"; eoffset := off; elength := len; eurl := None; euser_url := None |}.

Definition adjacent_codes_message : Message :=
  {| text := Some (py "ab"); entities := [code_entity 0 1; code_entity 1 1] |}.

Definition backticks_in_code_message : Message :=
  {| text := Some (py "a``b"); entities := [code_entity 0 4] |}.

(** Two well-formed messages with the same HTML (and markdown) rendering:
    [parse_entities] resumes after an entity at its end, so the text under
    a nested annotation is emitted twice.  ["ab"] bold with its first
    character also italic, and ["abab"] with bold on the first two
    characters and italic on the third, both give [<b>ab</b><i>a</i>b]. *)
Definition annotation (ty : pystr) (off len : Z) : MessageEntity :=
  {| etype := ty; eoffset := off; elength := len; eurl := None; euser_url := None |}.

Definition nested_message : Message :=
  {| text := Some (py "ab");
     entities := [annotation (py "bold") 0 2; annotation (py "italic") 0 1] |}.

Definition repeated_text_message : Message :=
  {| text := Some (py "abab");
     entities := [annotation (py "bold") 0 2; annotation (py "italic") 2 1] |}.

(** ** [get_send_method] (messages.py lines 14-27) *)

Section SendMethod.

(** Arguments passed through to the send call. *)
Variable Value : Type.







End SendMethod.

(** ** [get_file_id] (messages.py lines 30-42) *)

(** Outcome of a Python call: a value, or the class name of the exception. *)
Inductive py_outcome (A : Type) :=
| Returns (a : A)
| Raises (exc_class : string).
Arguments Returns {A} a.
Arguments Raises {A} exc_class.

(** A media attribute of a message: an object that may or may not have a
    [file_id] attribute ([Location] and [Contact] have none), or a list of
    such objects ([message.photo] is a list of [PhotoSize]). *)
Inductive Media :=
| MObject (file_id : option pystr)
| MList (items : list (option pystr)).

Record MediaMessage := {
  content_type : pystr;
  media_attrs : list (pystr * Media)
}.

Fixpoint lookup_media (name : pystr) (attrs : list (pystr * Media)) : option Media :=
  match attrs with
  | [] => None
  | (k, v) :: attrs' => if pystr_eqb k name then Some v else lookup_media name attrs'
  end.

(** [obj.file_id] *)
Definition file_id_attr (o : option pystr) : py_outcome (option pystr) :=
  match o with
  | Some f => Returns (Some f)
  | None => Raises "AttributeError"
  end.

Definition get_file_id (m : MediaMessage) : py_outcome (option pystr) :=
  if pystr_eqb (content_type m) (py "text") then Returns None
  else
    match lookup_media (content_type m) (media_attrs m) with
    | None => Raises "AttributeError"                 (* getattr without default *)
    | Some content =>
        if pystr_eqb (content_type m) (py "photo") then
          match content with
          | MList items =>
              match rev items with                    (* content[-1] *)
              | o :: _ => file_id_attr o
              | [] => Raises "IndexError"
              end
          | MObject _ => Raises "TypeError"            (* object not subscriptable *)
          end
        else
          match content with
          | MObject o => file_id_attr o
          | MList _ => Raises "AttributeError"         (* list has no file_id *)
          end
    end.

(** Entities that are all Telegram [url] annotations, in increasing order,
    non-overlapping and inside the text, starting from position [off]. *)
Fixpoint url_chain (len off : Z) (es : list MessageEntity) : bool :=
  match es with
  | [] => off <=? len
  | e :: es' =>
      pystr_eqb (etype e) (py "url") && (off <=? eoffset e) && (0 <? elength e)
      && url_chain len (eoffset e + elength e) es'
  end.

(** * Proofs *)

Ltac zbool_step :=
  match goal with
  | |- context [?a <? ?b] => destruct (Z.ltb_spec a b)
  | |- context [?a <=? ?b] => destruct (Z.leb_spec a b)
  | |- context [?a =? ?b] => destruct (Z.eqb_spec a b)
  end; cbn [andb orb negb]; try (exfalso; lia).

(** Splits [x] into [x / 64] and [x mod 64]. *)
Ltac split64 x q r :=
  let Hq := fresh in let Hr := fresh in
  remember (x / 64) as q eqn:Hq; remember (x mod 64) as r eqn:Hr;
  assert (x = 64 * q + r) by (subst q r; apply Z.div_mod; lia);
  assert (0 <= r < 64) by (subst r; apply Z.mod_pos_bound; lia);
  clear Hq Hr.

(** ** UTF-8 *)

Lemma utf8_decode_encode_char (c : Z) (b rest : pybytes) :
  is_codepoint c = true -> utf8_encode_char c = Some b ->
  utf8_decode (b ++ rest) = option_map (cons c) (utf8_decode rest).
Proof.
  unfold is_codepoint, utf8_encode_char, is_surrogate.
  intros Hc Hb.
  rewrite andb_true_iff, Z.leb_le, Z.leb_le in Hc.
  assert (E1 : c / 4096 = c / 64 / 64) by (rewrite Z.div_div by lia; reflexivity).
  assert (E2 : c / 262144 = c / 64 / 64 / 64)
    by (rewrite !Z.div_div by lia; reflexivity).
  rewrite E2, E1 in Hb; clear E1 E2.
  revert Hb; repeat zbool_step; intro Hb; try discriminate;
    apply (f_equal (fun o => match o with Some x => x | None => [] end)) in Hb;
    cbv beta iota in Hb; subst b.
  all: lazymatch goal with
    | |- utf8_decode ([_] ++ _) = _ =>
      cbn [app utf8_decode]; repeat zbool_step; reflexivity
    | |- utf8_decode ([_; _] ++ _) = _ =>
      split64 c a r;
      remember (192 + a) as b1; remember (128 + r) as b2;
      cbn [app utf8_decode]; subst b1 b2; unfold is_cont;
      repeat zbool_step; do 2 f_equal; lia
    | |- utf8_decode ([_; _; _] ++ _) = _ =>
      split64 c a r; split64 a q m;
      remember (224 + q) as b1; remember (128 + m) as b2; remember (128 + r) as b3;
      cbn [app utf8_decode]; subst b1 b2 b3; unfold is_cont, is_surrogate;
      repeat zbool_step; do 2 f_equal; lia
    | |- utf8_decode ([_; _; _; _] ++ _) = _ =>
      split64 c a r; split64 a b m; split64 b q m2;
      remember (240 + q) as b1; remember (128 + m2) as b2;
      remember (128 + m) as b3; remember (128 + r) as b4;
      cbn [app utf8_decode]; subst b1 b2 b3 b4; unfold is_cont;
      repeat zbool_step; do 2 f_equal; lia
    end.
Qed.

Lemma utf8_encode_app (s1 s2 : pystr) :
  utf8_encode (s1 ++ s2) =
  match utf8_encode s1, utf8_encode s2 with
  | Some a, Some b => Some (a ++ b)
  | _, _ => None
  end.
Proof.
  induction s1 as [|c s1 IH]; cbn [app utf8_encode].
  - destruct (utf8_encode s2); reflexivity.
  - rewrite IH.
    destruct (utf8_encode_char c), (utf8_encode s1), (utf8_encode s2);
      try reflexivity.
    rewrite app_assoc; reflexivity.
Qed.

Lemma utf8_decode_encode (s : pystr) (bs : pybytes) :
  Forall (fun c => is_codepoint c = true) s ->
  utf8_encode s = Some bs -> utf8_decode bs = Some s.
Proof.
  revert bs; induction s as [|c s IH]; intros bs Hs He; cbn [utf8_encode] in He.
  - injection He as <-; reflexivity.
  - inversion Hs as [|? ? Hc Hs']; subst.
    destruct (utf8_encode_char c) as [b|] eqn:Ec; [|discriminate].
    destruct (utf8_encode s) as [bs'|] eqn:Es; [|discriminate].
    injection He as <-.
    rewrite (utf8_decode_encode_char c b bs' Hc Ec), (IH bs' Hs' eq_refl).
    reflexivity.
Qed.

(** ** Slicing *)

Lemma py_slice_to_app {A} (a b : list A) :
  py_slice_to (a ++ b) (Z.of_nat (length a)) = a.
Proof.
  unfold py_slice_to, py_slice, py_norm_index.
  rewrite length_app.
  destruct (Z.ltb_spec 0 0); [lia|].
  destruct (Z.ltb_spec (Z.of_nat (length a)) 0); [lia|].
  rewrite (Z.min_l 0) by lia.
  rewrite (Z.min_l (Z.of_nat (length a))) by lia.
  rewrite Z.sub_0_r, Nat2Z.id. cbn [Z.to_nat skipn].
  rewrite firstn_app, Nat.sub_diag, firstn_O, app_nil_r, firstn_all.
  reflexivity.
Qed.

(** The caret column of the pointer line falls on the character at
    [offset] in the excerpt. *)
Lemma caret_alignment (t : pystr) (offset : Z) :
  1 <= offset < Z.of_nat (length t) ->
  nth_error (bad_line_of t offset) (Z.to_nat (chars_before_of offset - 1))
  = nth_error (py_replace_char nl space t) (Z.to_nat offset).
Proof.
  intros H. unfold bad_line_of. cbv zeta.
  unfold py_slice, py_norm_index.
  set (t' := py_replace_char nl space t).
  assert (Hl : length t' = length t) by apply length_map.
  rewrite Hl.
  assert (Hcb : 1 <= chars_before_of offset <= offset /\ chars_before_of offset <= 25)
    by (unfold chars_before_of; destruct (Z.ltb_spec offset 25); lia).
  destruct (Z.ltb_spec (offset + 1 - chars_before_of offset) 0); [lia|].
  destruct (Z.ltb_spec (offset + 5) 0); [lia|].
  rewrite (Z.min_l (offset + 1 - chars_before_of offset)) by lia.
  rewrite nth_error_firstn, nth_error_skipn.
  destruct (Z.min_spec (offset + 5) (Z.of_nat (length t))) as [[_ Hm]|[_ Hm]];
    rewrite Hm;
    match goal with
    | |- (if Nat.ltb ?i ?n then _ else _) = _ => destruct (Nat.ltb_spec i n); try lia
    end;
    f_equal; lia.
Qed.

(** ** Exceptions raised in the [try] block *)

Lemma parse_offset_raises_ValueError (exc : pystr) (e : exn) :
  parse_offset exc = Raise e -> e = ValueError.
Proof.
  unfold parse_offset, raise_on_none.
  destruct (py_rsplit1 (py "offset") exc) as [|a [|o [|x l]]]; try congruence.
  destruct (py_int (py_strip o)); congruence.
Qed.

Lemma chars_offset_raises_unicode_error (bad : pystr) (n : Z) (e : exn) :
  chars_offset bad n = Raise e -> e = UnicodeEncodeError \/ e = UnicodeDecodeError.
Proof.
  unfold chars_offset, bind, raise_on_none.
  destruct (utf8_encode bad) as [enc|]; [|intros H; injection H; auto].
  destruct (utf8_decode (py_slice_to enc n)); [discriminate|].
  intros H; injection H; auto.
Qed.

Lemma error_offset_raises_ValueError (bad exc : pystr) (e : exn) :
  error_offset bad exc = Raise e -> isinstance_ValueError e = true.
Proof.
  unfold error_offset, bind.
  destruct (parse_offset exc) as [n|e'] eqn:Hp.
  - intros H. destruct (chars_offset_raises_unicode_error bad n e H) as [-> | ->];
      reflexivity.
  - intros H; injection H as <-.
    rewrite (parse_offset_raises_ValueError exc e' Hp). reflexivity.
Qed.

Lemma get_error_caption_never_raises (bad exc : pystr) :
  exists s, get_error_caption bad exc = Ok s.
Proof.
  unfold get_error_caption.
  destruct (error_offset bad exc) as [n|e] eqn:He.
  - eexists; reflexivity.
  - rewrite (error_offset_raises_ValueError bad exc e He). eexists; reflexivity.
Qed.

Lemma last_index_offset_suffix (p : pystr) :
  last_index (py "offset") (p ++ py "offset 6") = Some (length p).
Proof.
  induction p as [|c p IH].
  - reflexivity.
  - cbn [app length last_index]. rewrite IH. reflexivity.
Qed.

(** ** C2 *)

(** C2: when the description ends in a byte offset [N] that is the length
    of the UTF-8 encoding of the first [k] codepoints of the text, the
    located offset is [k], the decoded length of the first [N] bytes; the
    caption reports [k] and, for [1 <= k < len(text)], its caret stands under
    codepoint [k] of the text. *)
Theorem get_error_caption_codepoint_offset
    (bad exc : pystr) (k : nat) (prefix_bytes : pybytes) :
  Forall (fun c => is_codepoint c = true) bad ->
  utf8_encode bad <> None ->
  (k <= length bad)%nat ->
  utf8_encode (firstn k bad) = Some prefix_bytes ->
  parse_offset exc = Ok (Z.of_nat (length prefix_bytes)) ->
  (exists encoded, utf8_encode bad = Some encoded /\
     utf8_decode (py_slice_to encoded (Z.of_nat (length prefix_bytes)))
     = Some (firstn k bad)) /\
  error_offset bad exc = Ok (Z.of_nat k) /\
  get_error_caption bad exc
  = Ok ((exc ++ py ", (chars offset " ++ py_str_int (Z.of_nat k) ++ py ")")
        ++ caption_of bad (Z.of_nat k)) /\
  ((1 <= k < length bad)%nat ->
   nth_error (bad_line_of bad (Z.of_nat k))
             (Z.to_nat (chars_before_of (Z.of_nat k) - 1))
   = nth_error (py_replace_char nl space bad) k).
Proof.
  intros Hcp Henc Hk Hpre Hparse.
  destruct (utf8_encode (skipn k bad)) as [suf|] eqn:Es.
  2:{ exfalso. apply Henc. rewrite <- (firstn_skipn k bad), utf8_encode_app, Hpre, Es.
      reflexivity. }
  assert (Ebad : utf8_encode bad = Some (prefix_bytes ++ suf))
    by (rewrite <- (firstn_skipn k bad) at 1; rewrite utf8_encode_app, Hpre, Es;
        reflexivity).
  assert (Hdec : utf8_decode (py_slice_to (prefix_bytes ++ suf)
                   (Z.of_nat (length prefix_bytes))) = Some (firstn k bad)).
  { rewrite py_slice_to_app. apply utf8_decode_encode; [|exact Hpre].
    rewrite <- (firstn_skipn k bad) in Hcp. apply Forall_app in Hcp. tauto. }
  assert (Hoff : error_offset bad exc = Ok (Z.of_nat k)).
  { unfold error_offset, chars_offset. rewrite Hparse. cbn [bind].
    rewrite Ebad. cbn [bind raise_on_none]. rewrite Hdec. cbn [bind raise_on_none].
    rewrite length_firstn, Nat.min_l by exact Hk. reflexivity. }
  split; [exists (prefix_bytes ++ suf); split; assumption|].
  split; [exact Hoff|].
  split.
  - unfold get_error_caption. rewrite Hoff. reflexivity.
  - intros Hk1. rewrite caret_alignment by lia. rewrite Nat2Z.id. reflexivity.
Qed.

(** Text ["é *x"]: the ['*'] is at byte offset 3 and codepoint offset 2. *)
Lemma get_error_caption_codepoint_offset_witness :
  parse_offset (py "Can't find end of the entity starting at byte offset 3") = Ok 3 /\
  error_offset [233; 32; 42; 120]
    (py "Can't find end of the entity starting at byte offset 3") = Ok 2.
Proof.
  split; [vm_compute; reflexivity|].
  apply (get_error_caption_codepoint_offset [233; 32; 42; 120]
           (py "Can't find end of the entity starting at byte offset 3") 2
           [195; 169; 32]).
  - repeat constructor.
  - vm_compute; discriminate.
  - cbn; lia.
  - vm_compute; reflexivity.
  - vm_compute; reflexivity.
Defined.

(** ** C3 *)

(** C3: when no offset can be parsed out of the description, or the byte
    prefix at the parsed offset cannot be decoded (or the text cannot be
    encoded), [get_error_caption] returns the description unchanged and
    raises nothing. *)
Theorem get_error_caption_unchanged_on_failure (bad exc : pystr) :
  (exists e, parse_offset exc = Raise e) \/
  (exists n e, parse_offset exc = Ok n /\ chars_offset bad n = Raise e) ->
  get_error_caption bad exc = Ok exc.
Proof.
  intros H.
  assert (He : exists e, error_offset bad exc = Raise e).
  { unfold error_offset, bind.
    destruct H as [[e Hp]|[n [e [Hp Hc]]]]; rewrite Hp; [|rewrite Hc]; eauto. }
  destruct He as [e He].
  unfold get_error_caption. rewrite He, (error_offset_raises_ValueError bad exc e He).
  reflexivity.
Qed.

Lemma get_error_caption_unchanged_on_failure_witness :
  get_error_caption (py "hello *world") (py "Bad Request: can't parse entities")
  = Ok (py "Bad Request: can't parse entities") /\
  get_error_caption [233; 42] (py "byte offset 1") = Ok (py "byte offset 1").
Proof.
  split.
  - apply get_error_caption_unchanged_on_failure.
    left. exists ValueError. vm_compute. reflexivity.
  - apply get_error_caption_unchanged_on_failure.
    right. exists 1, UnicodeDecodeError. split; vm_compute; reflexivity.
Defined.

(** ** C4 *)




(** ** C5 *)

(** C5: for the text ["hello *world"] and any description ending in
    ["offset 6"], the caption is the excerpt ["ello *worl"] and the pointer
    ["     ^"]; the caret (column 5) stands under the ['*'], codepoint 6 of
    the text. *)
Theorem get_error_caption_hello_world (p : pystr) :
  get_error_caption (py "hello *world") (p ++ py "offset 6")
  = Ok ((p ++ py "offset 6") ++ py ", (chars offset 6)" ++ py ":" ++ [nl; nl]
        ++ markdown.pre (py "ello *worl") ++ [nl] ++ markdown.code (py "     ^")) /\
  nth_error (py "     ^") 5 = Some 94 /\
  nth_error (py "ello *worl") 5 = Some 42 /\
  nth_error (py "hello *world") 6 = Some 42.
Proof.
  assert (Hp : parse_offset (p ++ py "offset 6") = Ok 6).
  { unfold parse_offset, py_rsplit1. rewrite last_index_offset_suffix.
    rewrite skipn_app, skipn_all2 by (cbn; lia).
    replace (length p + length (py "offset") - length p)%nat with 6%nat
      by (cbn; lia).
    reflexivity. }
  split; [|vm_compute; repeat split].
  unfold get_error_caption, error_offset. rewrite Hp. cbn [bind].
  replace (chars_offset (py "hello *world") 6) with (@Ok Z 6)
    by (vm_compute; reflexivity).
  cbv beta iota. rewrite <- !app_assoc.
  do 2 f_equal.
Qed.

(** ** Format detection *)

(** C1 as stated fails at the empty text: [message.md_text] takes
    [self.text or self.caption], which is [None] for an empty text without
    caption, and raises [TypeError]; the detector (bot.py line 113) lets it
    through instead of returning one of the three answers. *)
Lemma detect_empty_text_raises :
  detect_aiogram {| text := Some []; entities := [] |} = Raise TypeError.
Proof. vm_compute. reflexivity. Qed.

(** C1 (amended): when the entity rendering of the message raises, the
    detector raises the same exception; when it returns a string [w], the
    detector returns [None] exactly when the escapes of [w] exceed both
    raw-dialect counts, otherwise ['html'] exactly when the HTML count
    exceeds the markdown count, otherwise ['markdown'] (ties included). *)
Theorem detect_message_text_formatting_decision
    (escape_md quote_html : pystr -> pystr) (md_text_probe : Message -> result pystr)
    (m : Message) (raw : pystr) :
  text m = Some raw ->
  let detect := detect_message_text_formatting escape_md quote_html md_text_probe in
  (forall e, md_text_probe m = Raise e -> detect m = Raise e) /\
  (forall w, md_text_probe m = Ok w ->
   let md := escaped_md_of escape_md raw in
   let html := escaped_html_of quote_html raw in
   let ent := escaped_with_entities_of escape_md w raw in
   (detect m = Ok None <-> ent > Z.max html md) /\
   (detect m = Ok (Some (py "html")) <-> ent <= Z.max html md /\ html > md) /\
   (detect m = Ok (Some (py "markdown")) <-> ent <= Z.max html md /\ html <= md)).
Proof.
  intros Ht. cbv zeta. unfold detect_message_text_formatting, escaped_md_of,
    escaped_html_of, escaped_with_entities_of.
  rewrite Ht. split.
  - intros e He. rewrite He. reflexivity.
  - intros w Hw. rewrite Hw. cbn [bind].
    set (md := backslash_count (escape_md raw) - backslash_count raw).
    set (html := ampersand_count (quote_html raw) - ampersand_count raw).
    set (ent := backslash_count (escape_md w) - backslash_count raw).
    destruct (Z.ltb_spec (Z.max html md) ent);
      [|destruct (Z.ltb_spec md html)];
      repeat match goal with |- _ /\ _ => split | |- _ <-> _ => split end;
      intros Hx; try lia;
      try (injection Hx; vm_compute; discriminate);
      try discriminate; try reflexivity; try (exfalso; lia).
Qed.

Lemma detect_message_text_formatting_decision_witness :
  detect_aiogram {| text := Some (py "*bold* and _italic_"); entities := [] |}
  = Ok (Some (py "markdown")).
Proof.
  apply (proj2 (proj2 (proj2 (detect_message_text_formatting_decision
    markdown.escape_md markdown.quote_html aiogram_probe
    {| text := Some (py "*bold* and _italic_"); entities := [] |}
    (py "*bold* and _italic_") eq_refl)
    (py "*bold* and _italic_") (eq_refl : aiogram_probe
       {| text := Some (py "*bold* and _italic_"); entities := [] |}
       = Ok (py "*bold* and _italic_"))))).
  vm_compute. split; discriminate.
Defined.




(** ** Markdown serialization *)

Lemma pystr_eqb_spec (a b : pystr) : pystr_eqb a b = true <-> a = b.
Proof. unfold pystr_eqb. destruct (list_eq_dec Z.eq_dec a b); split; congruence. Qed.

Lemma escape_md_cons (c : Z) (t : pystr) :
  markdown.escape_md (c :: t)
  = (if md_special c then [backslash; c] else [c]) ++ markdown.escape_md t.
Proof.
  unfold markdown.escape_md, markdown.py_replace1, md_special.
  cbn [flat_map]. rewrite !flat_map_app.
  destruct (Z.eqb_spec c 95); [subst; reflexivity|].
  destruct (Z.eqb_spec c 42); [subst; reflexivity|].
  destruct (Z.eqb_spec c 96); [subst; reflexivity|].
  destruct (Z.eqb_spec c 91); [subst; reflexivity|].
  apply Z.eqb_neq in n, n0, n1, n2.
  repeat progress (cbn [flat_map app orb]; rewrite ?n, ?n0, ?n1, ?n2).
  reflexivity.
Qed.


Lemma escape_md_nil_inv (t : pystr) : markdown.escape_md t = [] -> t = [].
Proof.
  destruct t as [|c t]; [reflexivity|].
  rewrite escape_md_cons. destruct (md_special c); discriminate.
Qed.

Lemma escape_md_head (t : pystr) (d : Z) (r : pystr) :
  markdown.escape_md t = d :: r -> md_special d = false.
Proof.
  destruct t as [|c t]; [discriminate|].
  rewrite escape_md_cons. destruct (md_special c) eqn:Hc; cbn [app].
  - intros H; injection H as <- _. reflexivity.
  - intros H; injection H as <- _. exact Hc.
Qed.

Lemma unescape_escape_md (t : pystr) : unescape_md (markdown.escape_md t) = t.
Proof.
  induction t as [|c t IH]; [reflexivity|].
  rewrite escape_md_cons.
  destruct (md_special c) eqn:Hc; cbn [app unescape_md].
  - rewrite Z.eqb_refl, Hc, IH. reflexivity.
  - destruct (Z.eqb_spec c backslash) as [Hb|Hb].
    + destruct (markdown.escape_md t) as [|d r] eqn:He.
      * rewrite (escape_md_nil_inv t He). subst. reflexivity.
      * rewrite (escape_md_head t d r He), IH. reflexivity.
    + rewrite IH. reflexivity.
Qed.

Lemma md_text_no_entities (cfg : RenderConfig) (t : pystr) :
  t <> [] -> md_text cfg {| text := Some t; entities := [] |} = Ok (escape_fn cfg t).
Proof. destruct t; [contradiction|reflexivity]. Qed.

Lemma markdown_collision :
  md_text with_dont_change_plain_urls adjacent_codes_message
  = md_text with_dont_change_plain_urls backticks_in_code_message /\
  adjacent_codes_message <> backticks_in_code_message /\
  well_formed adjacent_codes_message = true /\
  well_formed backticks_in_code_message = true.
Proof.
  split; [vm_compute; reflexivity|].
  split; [intros H; injection H; vm_compute; discriminate|].
  split; vm_compute; reflexivity.
Qed.

(** Nested annotations: the text under the inner annotation is emitted
    again after the outer one, in both serializations. *)
Lemma nested_collision :
  html_text with_dont_change_plain_urls nested_message
  = html_text with_dont_change_plain_urls repeated_text_message /\
  html_text with_dont_change_plain_urls nested_message
  = Ok (py "<b>ab</b><i>a</i>b") /\
  md_text with_dont_change_plain_urls nested_message
  = md_text with_dont_change_plain_urls repeated_text_message /\
  nested_message <> repeated_text_message /\
  well_formed nested_message = true /\
  well_formed repeated_text_message = true.
Proof.
  split; [vm_compute; reflexivity|].
  split; [vm_compute; reflexivity|].
  split; [vm_compute; reflexivity|].
  split; [intros H; injection H; vm_compute; discriminate|].
  split; vm_compute; reflexivity.
Qed.

Lemma html_text_no_entities (cfg : RenderConfig) (t : pystr) :
  t <> [] -> html_text cfg {| text := Some t; entities := [] |} = Ok (markdown.quote_html t).
Proof. destruct t; [contradiction|reflexivity]. Qed.

Lemma unquote_html_other (c : Z) (r : pystr) :
  c <> 38 -> unquote_html (c :: r) = c :: unquote_html r.
Proof.
  intros Hc. cbn [unquote_html].
  rewrite (proj2 (Z.eqb_neq c 38) Hc). reflexivity.
Qed.

Lemma unquote_quote_html (t : pystr) : unquote_html (markdown.quote_html t) = t.
Proof.
  induction t as [|c t IH]; [reflexivity|].
  unfold markdown.quote_html in *. cbn [flat_map].
  remember (flat_map markdown.html_quote t) as q eqn:Eq. clear Eq.
  unfold markdown.html_quote.
  destruct (Z.eqb_spec c 60); [subst c; cbn; rewrite IH; reflexivity|].
  destruct (Z.eqb_spec c 62); [subst c; cbn; rewrite IH; reflexivity|].
  destruct (Z.eqb_spec c 38); [subst c; cbn; rewrite IH; reflexivity|].
  destruct (Z.eqb_spec c 34); [subst c; cbn; rewrite IH; reflexivity|].
  cbn [app]. rewrite unquote_html_other by assumption. rewrite IH. reflexivity.
Qed.

Lemma is_prefix_app (p s : pystr) : is_prefix p (p ++ s) = true.
Proof. induction p as [|a p IH]; [reflexivity|]. cbn. rewrite Z.eqb_refl, IH. reflexivity. Qed.

Lemma strip_suffix_unfold (suf s : pystr) :
  strip_suffix suf s
  = if pystr_eqb s suf then Some []
    else match s with
         | [] => None
         | c :: s' => option_map (cons c) (strip_suffix suf s')
         end.
Proof. destruct s; reflexivity. Qed.

Lemma strip_suffix_app (suf c : pystr) : strip_suffix suf (c ++ suf) = Some c.
Proof.
  induction c as [|x c IH]; cbn [app]; rewrite strip_suffix_unfold.
  - destruct (pystr_eqb suf suf) eqn:E; [reflexivity|].
    exfalso. assert (suf = suf) as Hs by reflexivity.
    apply pystr_eqb_spec in Hs. congruence.
  - destruct (pystr_eqb (x :: c ++ suf) suf) eqn:E.
    + apply pystr_eqb_spec in E. apply (f_equal (@length Z)) in E.
      cbn in E. rewrite length_app in E. lia.
    + rewrite IH. reflexivity.
Qed.

Lemma pre_fenced (s : pystr) : markdown.pre s = fence_open ++ s ++ fence_close.
Proof. reflexivity. Qed.

Lemma read_fenced_block_pre (s : pystr) : read_fenced_block (markdown.pre s) = Some s.
Proof.
  rewrite pre_fenced. unfold read_fenced_block. rewrite is_prefix_app.
  rewrite skipn_app, skipn_all, Nat.sub_diag. cbn [skipn app].
  apply strip_suffix_app.
Qed.

(** With aiogram's own delimiters a block read back gains a newline. *)
Lemma unpatched_fence_adds_newline (s : pystr) :
  read_fenced_block (markdown.pre_with markdown.MD_SYMBOLS_aiogram s) = Some (s ++ [nl]).
Proof.
  change (markdown.pre_with markdown.MD_SYMBOLS_aiogram s)
    with (fence_open ++ s ++ [nl] ++ fence_close).
  rewrite app_assoc with (l := s). unfold read_fenced_block. rewrite is_prefix_app.
  rewrite skipn_app, skipn_all, Nat.sub_diag. cbn [skipn app].
  apply strip_suffix_app.
Qed.

Lemma py_slice_empty {A} (l : list A) (i : Z) : py_slice l i i = [].
Proof. unfold py_slice. rewrite Z.sub_diag. reflexivity. Qed.

Lemma py_slice_all {A} (l : list A) : py_slice l 0 (Z.of_nat (length l)) = l.
Proof.
  unfold py_slice, py_norm_index.
  destruct (Z.ltb_spec (Z.of_nat (length l)) 0); [lia|].
  rewrite Z.min_id. cbn [Z.ltb Z.compare Z.min Z.to_nat skipn].
  rewrite Z.min_l by lia. rewrite Z.sub_0_r, Nat2Z.id. apply firstn_all.
Qed.

Lemma entity_parse_pre (cfg : RenderConfig) (e : MessageEntity) (t : pystr) :
  etype e = py "pre" -> entity_parse cfg e t = markdown.pre (get_text e t).
Proof. intros He. unfold entity_parse. rewrite He. reflexivity. Qed.

Lemma md_text_code_block (c : pystr) :
  c <> [] ->
  md_text with_dont_change_plain_urls (code_block_message c) = Ok (markdown.pre c).
Proof.
  intros Hc. unfold md_text, code_block_message. cbn [text entities].
  destruct c as [|x c']; [contradiction|].
  remember (x :: c') as c eqn:Ec. clear Hc Ec.
  cbn [sort_by_offset insert_by_offset render_entities].
  rewrite entity_parse_pre by reflexivity.
  unfold get_text, pre_entity. cbn [eoffset elength].
  rewrite !py_slice_empty, Z.add_0_l, py_slice_all. rewrite app_nil_r. reflexivity.
Qed.

(** ** C6 *)

(** C6: after the patch the fenced-block delimiters are ["```\n"] and
    ["```"]; every code-block annotation of any message is emitted as
    ["```\n"], its content, ["```"], with no newline added before the closing
    fence; a message made of a code block is a fixed point of serializing
    and reading the block back, so repeating the round trip adds no blank
    lines. *)
Theorem code_block_fence_no_growth (content : pystr) :
  content <> [] ->
  nth 3 markdown.MD_SYMBOLS ([], []) = (py "```" ++ [nl], py "```") /\
  (forall cfg e t, etype e = py "pre" ->
     entity_parse cfg e t = py "```" ++ [nl] ++ get_text e t ++ py "```") /\
  md_text with_dont_change_plain_urls (code_block_message content)
  = Ok (py "```" ++ [nl] ++ content ++ py "```") /\
  code_block_round_trip (code_block_message content) = Some (code_block_message content) /\
  (match code_block_round_trip (code_block_message content) with
   | Some m' => code_block_round_trip m'
   | None => None
   end) = Some (code_block_message content).
Proof.
  intros Hc.
  assert (Hrt : code_block_round_trip (code_block_message content)
                = Some (code_block_message content)).
  { unfold code_block_round_trip. rewrite md_text_code_block by exact Hc.
    rewrite read_fenced_block_pre. reflexivity. }
  split; [reflexivity|].
  split; [intros cfg e t He; rewrite entity_parse_pre by exact He; reflexivity|].
  split; [rewrite md_text_code_block by exact Hc; reflexivity|].
  split; [exact Hrt|].
  rewrite Hrt. exact Hrt.
Qed.

Lemma code_block_fence_no_growth_witness :
  code_block_round_trip (code_block_message (py "x = 1" ++ [nl]))
  = Some (code_block_message (py "x = 1" ++ [nl])).
Proof.
  apply (code_block_fence_no_growth (py "x = 1" ++ [nl])). discriminate.
Defined.

(** ** C7 *)




(** ** C8 *)

(** C8 as stated fails in both directions: two distinct well-formed
    messages have the same markdown serialization, and two others the same
    HTML serialization, so no parser maps every serialization back to its
    message. *)
Lemma round_trip_cex :
  ~ (exists parse : pystr -> Message,
       forall m, well_formed m = true ->
       forall s, md_text with_dont_change_plain_urls m = Ok s -> parse s = m) /\
  ~ (exists parse : pystr -> Message,
       forall m, well_formed m = true ->
       forall s, html_text with_dont_change_plain_urls m = Ok s -> parse s = m).
Proof.
  split.
  - intros [parse H].
    destruct markdown_collision as [Heq [Hne [W1 W2]]].
    destruct (md_text with_dont_change_plain_urls adjacent_codes_message) as [s|e] eqn:E1.
    + apply Hne.
      rewrite <- (H adjacent_codes_message W1 s E1).
      apply (H backticks_in_code_message W2 s). rewrite <- Heq. reflexivity.
    + discriminate E1.
  - intros [parse H].
    destruct nested_collision as [Heq [E1 [_ [Hne [W1 W2]]]]].
    apply Hne.
    rewrite <- (H nested_message W1 _ E1).
    apply (H repeated_text_message W2). rewrite <- Heq. exact E1.
Qed.

(** C8 (amended): for a message without annotations the markdown
    serialization is [escape_md] of the text, and dropping the backslash it
    puts before [_ * ` \[] gives the text back; the HTML serialization is
    [quote_html] of the text, and replacing the character references gives
    it back.  With annotations neither serialization is injective: nested
    annotations repeat text (in both), and code contents are emitted
    unescaped (in markdown). *)
Theorem plain_text_round_trip (t : pystr) :
  t <> [] ->
  (exists s, md_text with_dont_change_plain_urls {| text := Some t; entities := [] |} = Ok s
             /\ unescape_md s = t) /\
  (exists s, html_text with_dont_change_plain_urls {| text := Some t; entities := [] |} = Ok s
             /\ unquote_html s = t) /\
  html_text with_dont_change_plain_urls nested_message
  = html_text with_dont_change_plain_urls repeated_text_message /\
  md_text with_dont_change_plain_urls nested_message
  = md_text with_dont_change_plain_urls repeated_text_message /\
  nested_message <> repeated_text_message /\
  md_text with_dont_change_plain_urls adjacent_codes_message
  = md_text with_dont_change_plain_urls backticks_in_code_message /\
  adjacent_codes_message <> backticks_in_code_message.
Proof.
  intros Ht.
  destruct markdown_collision as [Heq [Hne _]].
  destruct nested_collision as [Heq' [_ [Heq'' [Hne' _]]]].
  split; [|split; [|repeat split; assumption]].
  - exists (markdown.escape_md t). split.
    + apply md_text_no_entities. exact Ht.
    + apply unescape_escape_md.
  - exists (markdown.quote_html t). split.
    + apply html_text_no_entities. exact Ht.
    + apply unquote_quote_html.
Qed.

Lemma plain_text_round_trip_witness :
  exists s, html_text with_dont_change_plain_urls
              {| text := Some (py "<a&b>"); entities := [] |} = Ok s
            /\ unquote_html s = py "<a&b>".
Proof.
  apply (plain_text_round_trip (py "<a&b>")). discriminate.
Defined.

(** ** C10 *)


(** * Further properties of the code *)

(** ** UTF-8 prefixes *)

(** A proper, non-empty prefix of the encoding of one character does not
    decode. *)
Lemma utf8_decode_truncated (c : Z) (b : pybytes) (j : nat) :
  is_codepoint c = true -> utf8_encode_char c = Some b ->
  (0 < j < length b)%nat -> utf8_decode (firstn j b) = None.
Proof.
  unfold is_codepoint, utf8_encode_char, is_surrogate.
  intros Hc Hb Hj.
  rewrite andb_true_iff, Z.leb_le, Z.leb_le in Hc.
  assert (E1 : c / 4096 = c / 64 / 64) by (rewrite Z.div_div by lia; reflexivity).
  assert (E2 : c / 262144 = c / 64 / 64 / 64)
    by (rewrite !Z.div_div by lia; reflexivity).
  rewrite E2, E1 in Hb; clear E1 E2.
  revert Hb; repeat zbool_step; intro Hb; try discriminate;
    apply (f_equal (fun o => match o with Some x => x | None => [] end)) in Hb;
    cbv beta iota in Hb; subst b; cbn [length] in Hj.
  all: lazymatch goal with
    | |- utf8_decode (firstn _ [_]) = None => lia
    | |- utf8_decode (firstn _ [_; _]) = None =>
      split64 c a r; destruct j as [|[|j]]; try lia;
      remember (192 + a) as b1; cbn [firstn utf8_decode]; subst b1;
      repeat zbool_step; reflexivity
    | |- utf8_decode (firstn _ [_; _; _]) = None =>
      split64 c a r; split64 a q m;
      remember (224 + q) as b1; remember (128 + m) as b2;
      destruct j as [|[|[|j]]]; try lia; cbn [firstn utf8_decode]; subst b1 b2;
      unfold is_cont; repeat zbool_step; reflexivity
    | |- utf8_decode (firstn _ [_; _; _; _]) = None =>
      split64 c a r; split64 a b m; split64 b q m2;
      remember (240 + q) as b1; remember (128 + m2) as b2; remember (128 + m) as b3;
      destruct j as [|[|[|[|j]]]]; try lia; cbn [firstn utf8_decode]; subst b1 b2 b3;
      unfold is_cont; repeat zbool_step; reflexivity
    end.
Qed.

Lemma utf8_decode_app_encoded (s : pystr) (bs x : pybytes) :
  Forall (fun c => is_codepoint c = true) s -> utf8_encode s = Some bs ->
  utf8_decode (bs ++ x) = option_map (app s) (utf8_decode x).
Proof.
  revert bs; induction s as [|c s IH]; intros bs Hs He; cbn [utf8_encode] in He.
  - injection He as <-. cbn [app]. destruct (utf8_decode x); reflexivity.
  - inversion Hs as [|? ? Hc Hs']; subst.
    destruct (utf8_encode_char c) as [b|] eqn:Ec; [|discriminate].
    destruct (utf8_encode s) as [bs'|] eqn:Es; [|discriminate].
    injection He as <-. rewrite <- app_assoc.
    rewrite (utf8_decode_encode_char c b (bs' ++ x) Hc Ec), (IH bs' Hs' eq_refl).
    destruct (utf8_decode x); reflexivity.
Qed.

(** A byte prefix of an encoding that decodes, decodes to a codepoint
    prefix of the text. *)
Lemma utf8_decode_encoded_prefix (s : pystr) (bs : pybytes) (n : nat) (d : pystr) :
  Forall (fun c => is_codepoint c = true) s -> utf8_encode s = Some bs ->
  utf8_decode (firstn n bs) = Some d ->
  exists k, (k <= length s)%nat /\ d = firstn k s.
Proof.
  revert bs n d; induction s as [|c s IH]; intros bs n d Hs He Hd;
    cbn [utf8_encode] in He.
  - injection He as <-. rewrite firstn_nil in Hd. injection Hd as <-.
    exists O. split; [lia|reflexivity].
  - inversion Hs as [|? ? Hc Hs']; subst.
    destruct (utf8_encode_char c) as [b|] eqn:Ec; [|discriminate].
    destruct (utf8_encode s) as [bs'|] eqn:Es; [|discriminate].
    injection He as <-. rewrite firstn_app in Hd.
    destruct (Nat.le_gt_cases (length b) n) as [Hn|Hn].
    + rewrite firstn_all2 in Hd by exact Hn.
      rewrite (utf8_decode_encode_char c b _ Hc Ec) in Hd.
      destruct (utf8_decode (firstn (n - length b) bs')) as [d'|] eqn:Hd';
        [|discriminate].
      injection Hd as <-.
      destruct (IH bs' (n - length b)%nat d' Hs' eq_refl Hd') as [k [Hk ->]].
      exists (S k). split; [cbn [length]; lia|reflexivity].
    + replace (n - length b)%nat with O in Hd by lia.
      rewrite firstn_O, app_nil_r in Hd.
      destruct n as [|n].
      * rewrite firstn_O in Hd. injection Hd as <-.
        exists O. split; [lia|reflexivity].
      * rewrite (utf8_decode_truncated c b (S n) Hc Ec) in Hd by lia. discriminate.
Qed.

Lemma codepoints_of_forallb (s : pystr) :
  forallb is_codepoint s = true -> Forall (fun c => is_codepoint c = true) s.
Proof. intros H. apply Forall_forall, forallb_forall. exact H. Qed.

Lemma py_slice_to_firstn {A} (l : list A) (n : Z) :
  py_slice_to l n = firstn (Z.to_nat (py_norm_index (Z.of_nat (length l)) n)) l.
Proof.
  unfold py_slice_to, py_slice.
  replace (py_norm_index (Z.of_nat (length l)) 0) with 0
    by (unfold py_norm_index; cbn [Z.ltb Z.compare]; lia).
  rewrite Z.sub_0_r. reflexivity.
Qed.

(** ** The error locator *)

(** Whatever the inputs, [get_error_caption] returns a string that starts
    with the error description: the caption is only ever appended. *)
Theorem get_error_caption_keeps_description (bad exc : pystr) :
  exists suffix, get_error_caption bad exc = Ok (exc ++ suffix).
Proof.
  unfold get_error_caption.
  destruct (error_offset bad exc) as [n|e] eqn:He.
  - eexists. rewrite <- !app_assoc. reflexivity.
  - rewrite (error_offset_raises_ValueError bad exc e He).
    exists []. rewrite app_nil_r. reflexivity.
Qed.

(** Whatever integer the description ends in (negative, or past the end of
    the encoding), a located offset lies in [0, len(text)]. *)
Theorem error_offset_within_text (bad exc : pystr) (k : Z) :
  Forall (fun c => is_codepoint c = true) bad ->
  error_offset bad exc = Ok k -> 0 <= k <= Z.of_nat (length bad).
Proof.
  intros Hs. unfold error_offset, bind.
  destruct (parse_offset exc) as [n|e]; [|discriminate].
  unfold chars_offset, bind, raise_on_none.
  destruct (utf8_encode bad) as [enc|] eqn:He; [|discriminate].
  destruct (utf8_decode (py_slice_to enc n)) as [d|] eqn:Hd; [|discriminate].
  intros H; injection H as <-.
  rewrite py_slice_to_firstn in Hd.
  destruct (utf8_decode_encoded_prefix bad enc _ d Hs He Hd) as [k [Hk ->]].
  rewrite length_firstn. lia.
Qed.

(** Text ["é *x"] (5 bytes) with a description ending in offset -1: the
    slice drops the last byte and the located offset is 3. *)
Lemma error_offset_within_text_witness :
  error_offset [233; 32; 42; 120] (py "byte offset -1") = Ok 3 /\
  0 <= 3 <= Z.of_nat (length [233; 32; 42; 120]).
Proof.
  split; [vm_compute; reflexivity|].
  apply (error_offset_within_text [233; 32; 42; 120] (py "byte offset -1") 3).
  - repeat constructor.
  - vm_compute. reflexivity.
Defined.

(** A byte offset falling strictly inside the encoding of a multi-byte
    character makes the decode fail: the description is returned
    unchanged, with no caption. *)
Theorem error_offset_mid_character (pre post : pystr) (c : Z) (exc : pystr)
    (pb cb : pybytes) (j : nat) :
  Forall (fun x => is_codepoint x = true) (pre ++ c :: post) ->
  utf8_encode (pre ++ c :: post) <> None ->
  utf8_encode pre = Some pb -> utf8_encode_char c = Some cb ->
  (0 < j < length cb)%nat ->
  parse_offset exc = Ok (Z.of_nat (length pb + j)) ->
  error_offset (pre ++ c :: post) exc = Raise UnicodeDecodeError /\
  get_error_caption (pre ++ c :: post) exc = Ok exc.
Proof.
  intros Hs Henc Hpre Hc Hj Hp.
  apply Forall_app in Hs. destruct Hs as [Hspre Hspost].
  inversion Hspost as [|? ? Hcp _]; subst.
  destruct (utf8_encode post) as [pst|] eqn:Epost.
  2:{ exfalso. apply Henc. rewrite utf8_encode_app. cbn [utf8_encode].
      rewrite Hc, Epost. destruct (utf8_encode pre); reflexivity. }
  assert (Eall : utf8_encode (pre ++ c :: post) = Some (pb ++ cb ++ pst))
    by (rewrite utf8_encode_app; cbn [utf8_encode]; rewrite Hpre, Hc, Epost; reflexivity).
  assert (Hdec : error_offset (pre ++ c :: post) exc = Raise UnicodeDecodeError).
  { unfold error_offset, chars_offset. rewrite Hp. cbn [bind].
    rewrite Eall. cbn [bind raise_on_none].
    rewrite py_slice_to_firstn.
    replace (py_norm_index (Z.of_nat (length (pb ++ cb ++ pst)))
               (Z.of_nat (length pb + j)))
      with (Z.of_nat (length pb + j))
      by (unfold py_norm_index; rewrite !length_app;
          destruct (Z.ltb_spec (Z.of_nat (length pb + j)) 0); lia).
    rewrite Nat2Z.id, firstn_app, firstn_all2 by lia.
    replace (length pb + j - length pb)%nat with j by lia.
    rewrite firstn_app. replace (j - length cb)%nat with O by lia.
    rewrite firstn_O, app_nil_r.
    rewrite (utf8_decode_app_encoded pre pb _ Hspre Hpre).
    rewrite (utf8_decode_truncated c cb j Hcp Hc Hj). reflexivity. }
  split; [exact Hdec|].
  unfold get_error_caption. rewrite Hdec. reflexivity.
Qed.

(** Text ["é *x"]: byte offset 1 falls inside the two bytes of ['é']. *)
Lemma error_offset_mid_character_witness :
  error_offset ([] ++ 233 :: [32; 42; 120]) (py "byte offset 1") = Raise UnicodeDecodeError /\
  get_error_caption ([] ++ 233 :: [32; 42; 120]) (py "byte offset 1") = Ok (py "byte offset 1").
Proof.
  apply (error_offset_mid_character [] [32; 42; 120] 233 (py "byte offset 1")
           [] [195; 169] 1).
  - repeat constructor.
  - vm_compute. discriminate.
  - reflexivity.
  - vm_compute. reflexivity.
  - cbn. lia.
  - vm_compute. reflexivity.
Defined.

(** A byte offset at or past the end of the encoding is clamped by the
    slice: the located offset is the length of the text. *)
Theorem error_offset_past_end (bad exc : pystr) (enc : pybytes) (n : Z) :
  Forall (fun c => is_codepoint c = true) bad ->
  utf8_encode bad = Some enc ->
  Z.of_nat (length enc) <= n ->
  parse_offset exc = Ok n ->
  error_offset bad exc = Ok (Z.of_nat (length bad)).
Proof.
  intros Hs He Hn Hp.
  unfold error_offset, chars_offset. rewrite Hp. cbn [bind].
  rewrite He. cbn [bind raise_on_none].
  rewrite py_slice_to_firstn.
  replace (py_norm_index (Z.of_nat (length enc)) n) with (Z.of_nat (length enc))
    by (unfold py_norm_index; destruct (Z.ltb_spec n 0); lia).
  rewrite Nat2Z.id, firstn_all.
  rewrite (utf8_decode_encode bad enc Hs He). reflexivity.
Qed.

Lemma error_offset_past_end_witness :
  error_offset (py "hello *world") (py "Can't find end of the entity at byte offset 99")
  = Ok 12.
Proof.
  rewrite (error_offset_past_end (py "hello *world")
             (py "Can't find end of the entity at byte offset 99") (py "hello *world") 99).
  - reflexivity.
  - apply codepoints_of_forallb. vm_compute. reflexivity.
  - vm_compute. reflexivity.
  - vm_compute. discriminate.
  - vm_compute. reflexivity.
Defined.

(** ** Reading the offset back *)

Lemma is_digit_not_space (c : Z) : is_digit c = true -> py_isspace c = false.
Proof.
  unfold is_digit, py_isspace. rewrite andb_true_iff, !Z.leb_le. intros Hc.
  repeat zbool_step; reflexivity.
Qed.

Lemma py_lstrip_keep (c : Z) (l : pystr) :
  py_isspace c = false -> py_lstrip (c :: l) = c :: l.
Proof. intros H. cbn [py_lstrip]. rewrite H. reflexivity. Qed.

(** [str.strip()] leaves a string alone when neither end is whitespace. *)
Lemma py_strip_keep (c : Z) (l : pystr) (d : Z) (r : pystr) :
  py_isspace c = false -> rev (c :: l) = d :: r -> py_isspace d = false ->
  py_strip (c :: l) = c :: l.
Proof.
  intros Hc Hr Hd. unfold py_strip. rewrite py_lstrip_keep by exact Hc.
  rewrite Hr, py_lstrip_keep by exact Hd. rewrite <- Hr, rev_involutive.
  reflexivity.
Qed.

Lemma py_str_digits_spec (f : nat) :
  forall n, 0 <= n < 10 ^ Z.of_nat f -> (0 < f)%nat ->
  py_str_digits f n <> [] /\
  Forall (fun c => is_digit c = true) (py_str_digits f n) /\
  forall r b, py_parse_digits (py_str_digits f n ++ r) 0 b = py_parse_digits r n true.
Proof.
  induction f as [|f IH]; intros n Hn Hf; [lia|].
  cbn [py_str_digits].
  assert (Hd : forall d, 0 <= d < 10 -> is_digit (48 + d) = true)
    by (intros d Hd; unfold is_digit; rewrite andb_true_iff, !Z.leb_le; lia).
  destruct (Z.ltb_spec n 10).
  - split; [discriminate|]. split; [constructor; [apply Hd; lia|constructor]|].
    intros r b. cbn [app py_parse_digits]. rewrite Hd by lia.
    f_equal. lia.
  - pose proof (Z.div_mod n 10 ltac:(lia)) as Edm.
    pose proof (Z.mod_pos_bound n 10 ltac:(lia)) as Hm.
    rewrite Nat2Z.inj_succ, Z.pow_succ_r in Hn by lia.
    assert (Hq : 0 <= n / 10 < 10 ^ Z.of_nat f) by (split; [apply Z.div_pos|apply Z.div_lt_upper_bound]; lia).
    assert (Hf' : (0 < f)%nat).
    { destruct f; [|lia]. cbn in Hq. assert (1 <= n / 10) by (apply Z.div_le_lower_bound; lia). lia. }
    destruct (IH (n / 10) Hq Hf') as [Hne [Hall Hp]].
    split; [intros Hnil; apply app_eq_nil in Hnil; destruct Hnil; discriminate|].
    split; [apply Forall_app; split; [exact Hall|constructor; [apply Hd; lia|constructor]]|].
    intros r b. rewrite <- app_assoc, Hp. cbn [app py_parse_digits].
    rewrite Hd by lia. f_equal. lia.
Qed.

(** The fuel [str(n)] is given suffices. *)
Lemma py_str_int_fuel (m : Z) :
  0 <= m -> 0 <= m < 10 ^ Z.of_nat (S (Z.to_nat (Z.log2_up (m + 1)))).
Proof.
  intros Hm. pose proof (Z.log2_up_nonneg (m + 1)) as HL.
  assert (H2 : m + 1 <= 2 ^ Z.log2_up (m + 1))
    by (apply Z.log2_up_le_pow2; lia).
  assert (H10 : 2 ^ Z.log2_up (m + 1) <= 10 ^ Z.log2_up (m + 1))
    by (apply Z.pow_le_mono_l; lia).
  rewrite Nat2Z.inj_succ, Z2Nat.id, Z.pow_succ_r by lia.
  pose proof (Z.pow_pos_nonneg 10 (Z.log2_up (m + 1)) ltac:(lia) HL). lia.
Qed.

Lemma digits_no_o (D : pystr) :
  Forall (fun c => is_digit c = true) D -> Forall (fun c => c <> 111) D.
Proof.
  apply Forall_impl. intros c. unfold is_digit. rewrite andb_true_iff, !Z.leb_le. lia.
Qed.

Lemma last_index_no_o (pat' s : pystr) :
  Forall (fun c => c <> 111) s -> last_index (111 :: pat') s = None.
Proof.
  induction s as [|c s IH]; intros Hs; [reflexivity|].
  inversion Hs as [|? ? Hc Hs']; subst.
  cbn [last_index]. rewrite IH by exact Hs'. cbn [is_prefix].
  destruct (Z.eqb_spec 111 c); [congruence|reflexivity].
Qed.

Lemma last_index_app_prefix (pat p s : pystr) (i : nat) :
  last_index pat s = Some i -> last_index pat (p ++ s) = Some (length p + i)%nat.
Proof.
  intros H. induction p as [|c p IH]; [exact H|].
  cbn [app last_index length]. rewrite IH. reflexivity.
Qed.

Lemma py_strip_space (s : pystr) : py_strip (space :: s) = py_strip s.
Proof. reflexivity. Qed.

(** [int(str(n))] after [strip()], for any integer. *)
Lemma py_int_str_int (n : Z) :
  Forall (fun c => c <> 111) (py_str_int n) /\
  py_int (py_strip (space :: py_str_int n)) = Some n.
Proof.
  assert (Hdig : forall m, 0 <= m ->
    let D := py_str_digits (S (Z.to_nat (Z.log2_up (m + 1)))) m in
    D <> [] /\ Forall (fun c => is_digit c = true) D /\
    py_parse_digits D 0 false = Some m /\
    exists d r, rev D = d :: r /\ is_digit d = true).
  { intros m Hm. cbv zeta.
    destruct (py_str_digits_spec _ m (py_str_int_fuel m Hm) ltac:(lia)) as [Hne [Hall Hp]].
    set (D := py_str_digits (S (Z.to_nat (Z.log2_up (m + 1)))) m) in *.
    split; [exact Hne|]. split; [exact Hall|].
    split; [specialize (Hp [] false); rewrite app_nil_r in Hp; exact Hp|].
    destruct (rev D) as [|d r] eqn:Er.
    - exfalso. apply Hne. apply (f_equal (@rev Z)) in Er.
      rewrite rev_involutive in Er. exact Er.
    - exists d, r. split; [reflexivity|].
      rewrite Forall_forall in Hall. apply Hall. apply in_rev. rewrite Er. left; reflexivity. }
  cbv zeta in Hdig.
  unfold py_str_int. cbv beta zeta.
  destruct (Z.ltb_spec n 0) as [Hn|Hn].
  - destruct (Hdig (- n) ltac:(lia)) as [Hne [Hall [Hp [d [r [Er Hd]]]]]].
    set (D := py_str_digits (S (Z.to_nat (Z.log2_up (- n + 1)))) (- n)) in *.
    split; [constructor; [lia|apply digits_no_o; exact Hall]|].
    rewrite py_strip_space.
    assert (Hs : py_strip (45 :: D) = 45 :: D).
    { apply (py_strip_keep 45 D d (r ++ [45])); [reflexivity| |apply is_digit_not_space; exact Hd].
      cbn [rev]. rewrite Er. reflexivity. }
    rewrite Hs. unfold py_int. rewrite Hs. cbv iota. rewrite Hp. cbn [option_map].
    f_equal. lia.
  - destruct (Hdig n Hn) as [Hne [Hall [Hp [d [r [Er Hd]]]]]].
    set (D := py_str_digits (S (Z.to_nat (Z.log2_up (n + 1)))) n) in *.
    split; [apply digits_no_o; exact Hall|].
    destruct D as [|c D'] eqn:ED; [contradiction|].
    inversion Hall as [|? ? Hc _]; subst.
    assert (Hs : py_strip (c :: D') = c :: D').
    { apply (py_strip_keep c D' d r); [apply is_digit_not_space; exact Hc|exact Er|].
      apply is_digit_not_space; exact Hd. }
    rewrite py_strip_space, Hs. unfold py_int. rewrite Hs.
    unfold is_digit in Hc. rewrite andb_true_iff, !Z.leb_le in Hc.
    assert (c = 48 \/ c = 49 \/ c = 50 \/ c = 51 \/ c = 52 \/ c = 53 \/ c = 54
            \/ c = 55 \/ c = 56 \/ c = 57) as Hcs by lia.
    rewrite <- Hp.
    destruct Hcs as [->|[->|[->|[->|[->|[->|[->|[->|[->| ->]]]]]]]]]; reflexivity.
Qed.

(** Any description ending in ["offset "] followed by [str(n)] gives back
    [n], whatever precedes it (the last ["offset"] is the one used). *)
Theorem parse_offset_str_int (p : pystr) (n : Z) :
  parse_offset (p ++ py "offset " ++ py_str_int n) = Ok n.
Proof.
  destruct (py_int_str_int n) as [Hno Hint].
  assert (Hl : last_index (py "offset") (p ++ py "offset " ++ py_str_int n)
               = Some (length p)).
  { replace (length p) with (length p + 0)%nat by lia.
    apply last_index_app_prefix.
    change (py "offset " ++ py_str_int n)
      with (111 :: 102 :: 102 :: 115 :: 101 :: 116 :: 32 :: py_str_int n).
    change (py "offset") with [111; 102; 102; 115; 101; 116].
    cbn [last_index]. rewrite last_index_no_o by exact Hno. reflexivity. }
  unfold parse_offset, py_rsplit1. rewrite Hl.
  change (length (py "offset")) with 6%nat.
  rewrite skipn_app, skipn_all2, app_nil_l by lia.
  replace (length p + 6 - length p)%nat with 6%nat by lia.
  change (skipn 6 (py "offset " ++ py_str_int n)) with (space :: py_str_int n).
  cbv beta iota. rewrite Hint. reflexivity.
Qed.

(** ** The caption *)

Lemma in_firstn_in {A} (n : nat) (l : list A) (x : A) : In x (firstn n l) -> In x l.
Proof. intros H. rewrite <- (firstn_skipn n l). apply in_or_app. left. exact H. Qed.

Lemma in_skipn_in {A} (n : nat) (l : list A) (x : A) : In x (skipn n l) -> In x l.
Proof. intros H. rewrite <- (firstn_skipn n l). apply in_or_app. right. exact H. Qed.

(** For a non-negative offset the excerpt has at most 29 characters and no
    newline, and the pointer line has [max(1, min(25, offset))] characters. *)
Theorem caption_excerpt_bounds (bad : pystr) (offset : Z) :
  0 <= offset ->
  (length (bad_line_of bad offset) <= 29)%nat /\
  ~ In nl (bad_line_of bad offset) /\
  length (pointer_line_of offset) = Z.to_nat (Z.max 1 (Z.min 25 offset)).
Proof.
  intros Ho.
  assert (Hcb : chars_before_of offset = Z.min 25 offset)
    by (unfold chars_before_of; destruct (Z.ltb_spec offset 25); lia).
  split; [|split].
  - unfold bad_line_of. cbv zeta. rewrite Hcb. unfold py_slice, py_norm_index.
    rewrite length_firstn.
    destruct (Z.ltb_spec (offset + 1 - Z.min 25 offset) 0); [lia|].
    destruct (Z.ltb_spec (offset + 5) 0); [lia|].
    lia.
  - unfold bad_line_of, py_slice. cbv zeta. intros Hin.
    apply in_firstn_in, in_skipn_in in Hin.
    unfold py_replace_char in Hin. apply in_map_iff in Hin.
    destruct Hin as [c [Hc _]].
    destruct (Z.eqb_spec c nl); unfold nl, space in *; lia.
  - unfold pointer_line_of, py_repeat. rewrite length_app, repeat_length, Hcb.
    change (length (py "^")) with 1%nat. lia.
Qed.

Lemma caption_excerpt_bounds_witness :
  (length (bad_line_of (repeat (120 : Z) 40 ++ [nl] ++ repeat (121 : Z) 40) 40) <= 29)%nat /\
  ~ In nl (bad_line_of (repeat (120 : Z) 40 ++ [nl] ++ repeat (121 : Z) 40) 40) /\
  length (pointer_line_of 40) = Z.to_nat (Z.max 1 (Z.min 25 40)).
Proof. apply (caption_excerpt_bounds (repeat (120 : Z) 40 ++ [nl] ++ repeat (121 : Z) 40) 40). lia. Defined.

(** At offset 0 the pointer is a lone caret in column 0, but the excerpt
    starts at index 1: the caret stands under the second character of the
    text, not the first. *)
Theorem caption_offset_zero (bad : pystr) :
  (2 <= length bad)%nat ->
  pointer_line_of 0 = py "^" /\
  nth_error (bad_line_of bad 0) 0 = nth_error (py_replace_char nl space bad) 1.
Proof.
  intros Hl. split; [reflexivity|].
  unfold bad_line_of, chars_before_of. cbv zeta.
  replace (0 <? 25) with true by reflexivity. cbv iota.
  unfold py_slice, py_norm_index.
  set (t' := py_replace_char nl space bad).
  assert (Ht : length t' = length bad) by apply length_map.
  rewrite Ht.
  replace (0 + 1 - 0 <? 0) with false by reflexivity.
  replace (0 + 5 <? 0) with false by reflexivity.
  rewrite nth_error_firstn, nth_error_skipn.
  destruct (Nat.ltb_spec 0 (Z.to_nat (Z.min (0 + 5) (Z.of_nat (length bad))
                                      - Z.min (0 + 1 - 0) (Z.of_nat (length bad)))));
    [|lia].
  f_equal. lia.
Qed.

Lemma caption_offset_zero_witness :
  pointer_line_of 0 = py "^" /\
  nth_error (bad_line_of (py "*hello") 0) 0
  = nth_error (py_replace_char nl space (py "*hello")) 1.
Proof. apply (caption_offset_zero (py "*hello")). cbn. lia. Defined.

(** ** Escape counts of the detector *)

Lemma py_count_app (x : Z) (a b : pystr) :
  py_count x (a ++ b) = py_count x a + py_count x b.
Proof. unfold py_count. rewrite filter_app, length_app. lia. Qed.

Lemma py_count_cons (x c : Z) (t : pystr) :
  py_count x (c :: t) = py_count x [c] + py_count x t.
Proof. apply (py_count_app x [c] t). Qed.

Lemma escape_md_char_count (c : Z) :
  py_count 92 (if md_special c then [backslash; c] else [c]) - py_count 92 [c]
  = py_count 95 [c] + py_count 42 [c] + py_count 96 [c] + py_count 91 [c].
Proof.
  unfold md_special, py_count, backslash.
  destruct (Z.eqb_spec c 95) as [->|]; [reflexivity|].
  destruct (Z.eqb_spec c 42) as [->|]; [reflexivity|].
  destruct (Z.eqb_spec c 96) as [->|]; [reflexivity|].
  destruct (Z.eqb_spec c 91) as [->|]; [reflexivity|].
  cbn [orb filter]. repeat zbool_step; cbn; lia.
Qed.

Lemma html_quote_char_count (c : Z) :
  py_count 38 (markdown.html_quote c) - py_count 38 [c]
  = py_count 60 [c] + py_count 62 [c] + py_count 34 [c].
Proof.
  unfold markdown.html_quote.
  destruct (Z.eqb_spec c 60) as [->|]; [reflexivity|].
  destruct (Z.eqb_spec c 62) as [->|]; [reflexivity|].
  destruct (Z.eqb_spec c 38) as [->|]; [reflexivity|].
  destruct (Z.eqb_spec c 34) as [->|]; [reflexivity|].
  unfold py_count. cbn [filter]. repeat zbool_step; cbn; lia.
Qed.

Lemma escape_md_backslashes (raw : pystr) :
  backslash_count (markdown.escape_md raw)
  = backslash_count raw
    + (py_count 95 raw + py_count 42 raw + py_count 96 raw + py_count 91 raw).
Proof.
  unfold backslash_count.
  induction raw as [|c t IH]; [reflexivity|].
  rewrite escape_md_cons, py_count_app, IH.
  rewrite (py_count_cons 92 c t), (py_count_cons 95 c t), (py_count_cons 42 c t),
    (py_count_cons 96 c t), (py_count_cons 91 c t).
  pose proof (escape_md_char_count c) as Hc.
  destruct (md_special c); cbv iota in *; lia.
Qed.

Lemma quote_html_ampersands (raw : pystr) :
  ampersand_count (markdown.quote_html raw)
  = ampersand_count raw + (py_count 60 raw + py_count 62 raw + py_count 34 raw).
Proof.
  unfold ampersand_count.
  induction raw as [|c t IH]; [reflexivity|].
  change (markdown.quote_html (c :: t))
    with (markdown.html_quote c ++ markdown.quote_html t).
  rewrite py_count_app, IH.
  rewrite (py_count_cons 38 c t), (py_count_cons 60 c t), (py_count_cons 62 c t),
    (py_count_cons 34 c t).
  pose proof (html_quote_char_count c) as Hc.
  set (x := py_count 38 (markdown.html_quote c)) in *. lia.
Qed.

(** With aiogram's [escape_md] and [quote_html], the detector's markdown
    count is the number of [_ * ` \[] in the text and its HTML count the
    number of [<], [>] and double quotes ([&] adds nothing: it is counted
    before and after). *)
Theorem detect_escape_counts (raw : pystr) :
  escaped_md_of markdown.escape_md raw
  = py_count 95 raw + py_count 42 raw + py_count 96 raw + py_count 91 raw /\
  escaped_html_of markdown.quote_html raw
  = py_count 60 raw + py_count 62 raw + py_count 34 raw.
Proof.
  unfold escaped_md_of, escaped_html_of.
  rewrite escape_md_backslashes, quote_html_ampersands. split; lia.
Qed.

(** ** Plain URLs under both patches *)

Lemma url_chain_le (len off : Z) (es : list MessageEntity) :
  url_chain len off es = true -> off <= len.
Proof.
  revert off; induction es as [|e es IH]; intros off H; cbn [url_chain] in H.
  - apply Z.leb_le. exact H.
  - rewrite !andb_true_iff in H. destruct H as [[[_ Ho] Hl] Hr].
    apply Z.leb_le in Ho. apply Z.ltb_lt in Hl. specialize (IH _ Hr). lia.
Qed.

Lemma sort_url_chain (len off : Z) (es : list MessageEntity) :
  url_chain len off es = true -> sort_by_offset es = es.
Proof.
  revert off; induction es as [|e es IH]; intros off H; [reflexivity|].
  cbn [url_chain] in H. rewrite !andb_true_iff in H. destruct H as [[[_ Ho] Hl] Hr].
  apply Z.ltb_lt in Hl.
  cbn [sort_by_offset]. rewrite (IH _ Hr).
  destruct es as [|x es']; [reflexivity|].
  cbn [url_chain] in Hr. rewrite !andb_true_iff in Hr. destruct Hr as [[[_ Hx] _] _].
  apply Z.leb_le in Hx.
  cbn [insert_by_offset]. destruct (Z.leb_spec (eoffset e) (eoffset x)); [reflexivity|lia].
Qed.

Lemma entity_parse_url_probe (e : MessageEntity) (t : pystr) :
  etype e = py "url" -> entity_parse with_both_patches e t = get_text e t.
Proof.
  intros He. unfold entity_parse. rewrite He.
  cbn -[get_text markdown.link]. destruct (euser_url e); reflexivity.
Qed.

Lemma firstn_add_skipn {A} (n m : nat) (l : list A) :
  firstn (n + m) l = firstn n l ++ firstn m (skipn n l).
Proof.
  revert l; induction n as [|n IH]; intros l; [reflexivity|].
  destruct l as [|x l]; cbn [firstn skipn app Nat.add].
  - rewrite firstn_nil. reflexivity.
  - rewrite IH. reflexivity.
Qed.

Lemma py_slice_concat {A} (l : list A) (a b c : Z) :
  0 <= a <= b -> b <= c <= Z.of_nat (length l) ->
  py_slice l a b ++ py_slice l b c = py_slice l a c.
Proof.
  intros Hab Hbc. unfold py_slice, py_norm_index.
  destruct (Z.ltb_spec a 0); [lia|]. destruct (Z.ltb_spec b 0); [lia|].
  destruct (Z.ltb_spec c 0); [lia|].
  rewrite (Z.min_l a), (Z.min_l b), (Z.min_l c) by lia.
  replace (Z.to_nat b) with (Z.to_nat (b - a) + Z.to_nat a)%nat by lia.
  rewrite <- skipn_skipn.
  replace (Z.to_nat (c - a)) with (Z.to_nat (b - a) + Z.to_nat (c - b))%nat by lia.
  rewrite firstn_add_skipn. reflexivity.
Qed.

Lemma render_url_chain (t : pystr) (off : Z) (es : list MessageEntity) :
  0 <= off -> url_chain (Z.of_nat (length t)) off es = true ->
  render_entities with_both_patches t off es = py_slice t off (Z.of_nat (length t)).
Proof.
  revert off; induction es as [|e es IH]; intros off Ho H; [reflexivity|].
  cbn [url_chain] in H. rewrite !andb_true_iff in H. destruct H as [[[Hty He] Hl] Hr].
  apply Z.leb_le in He. apply Z.ltb_lt in Hl. apply pystr_eqb_spec in Hty.
  pose proof (url_chain_le _ _ _ Hr) as Hend.
  cbn [render_entities].
  change (escape_fn with_both_patches) with (fun s : pystr => s). cbv beta.
  rewrite entity_parse_url_probe by exact Hty.
  rewrite IH by (lia || exact Hr).
  unfold get_text.
  rewrite py_slice_concat by lia. rewrite py_slice_concat by lia. reflexivity.
Qed.

Lemma md_text_probe_url_chain (t : pystr) (es : list MessageEntity) :
  t <> [] -> url_chain (Z.of_nat (length t)) 0 es = true ->
  md_text with_both_patches {| text := Some t; entities := es |} = Ok t.
Proof.
  intros Ht H. destruct t as [|x t']; [contradiction|].
  unfold md_text. cbn [text entities].
  destruct es as [|e es']; [reflexivity|].
  rewrite (sort_url_chain _ _ _ H), (render_url_chain _ 0 _ ltac:(lia) H).
  rewrite py_slice_all. reflexivity.
Qed.

(** A message whose only annotations are Telegram's plain-URL ones (in
    order, inside the text) is never classified as pre-formatted: the
    detector picks ['html'] exactly when the text has more of [<], [>] and
    double quotes than of [_ * ` \[], and ['markdown'] otherwise. *)
Theorem detect_plain_urls (t : pystr) (es : list MessageEntity) :
  t <> [] -> url_chain (Z.of_nat (length t)) 0 es = true ->
  detect_aiogram {| text := Some t; entities := es |}
  = Ok (Some (if py_count 95 t + py_count 42 t + py_count 96 t + py_count 91 t
                 <? py_count 60 t + py_count 62 t + py_count 34 t
              then py "html" else py "markdown")).
Proof.
  intros Ht Hc.
  unfold detect_aiogram, detect_message_text_formatting. cbn [text]. cbv zeta.
  unfold aiogram_probe. rewrite (md_text_probe_url_chain t es Ht Hc). cbn [bind].
  rewrite escape_md_backslashes, quote_html_ampersands.
  set (md := py_count 95 t + py_count 42 t + py_count 96 t + py_count 91 t).
  set (html := py_count 60 t + py_count 62 t + py_count 34 t).
  replace (backslash_count t + md - backslash_count t) with md by ring.
  replace (ampersand_count t + html - ampersand_count t) with html by ring.
  destruct (Z.ltb_spec (Z.max html md) md); [lia|].
  destruct (md <? html); reflexivity.
Qed.

Lemma detect_plain_urls_witness :
  detect_aiogram
    {| text := Some (py "see http://x.io/a_b <here>");
       entities := [{| etype := py "url"; eoffset := 4; elength := 15;
                       eurl := None; euser_url := None |}] |}
  = Ok (Some (py "html")).
Proof.
  rewrite detect_plain_urls.
  - reflexivity.
  - discriminate.
  - vm_compute. reflexivity.
Defined.

(** ** [get_file_id] *)

(** [get_file_id] returns [None] only for text messages: for any other
    content type it returns a file id or raises. *)
Theorem get_file_id_none_only_text (m : MediaMessage) :
  get_file_id m = Returns None -> content_type m = py "text".
Proof.
  unfold get_file_id.
  destruct (pystr_eqb (content_type m) (py "text")) eqn:E.
  - intros _. apply pystr_eqb_spec. exact E.
  - assert (Hf : forall o, file_id_attr o <> Returns None) by (intros [o|]; discriminate).
    destruct (lookup_media (content_type m) (media_attrs m)) as [[o|items]|]; [| |discriminate];
      destruct (pystr_eqb (content_type m) (py "photo")); try discriminate;
      try (intros H; exfalso; exact (Hf o H)).
    destruct (rev items) as [|o _]; [discriminate|].
    intros H; exfalso; exact (Hf o H).
Qed.

Lemma get_file_id_none_only_text_witness :
  get_file_id {| content_type := py "text"; media_attrs := [] |} = Returns None /\
  content_type {| content_type := py "text"; media_attrs := [] |} = py "text".
Proof.
  split; [reflexivity|].
  apply get_file_id_none_only_text. reflexivity.
Defined.

(** For a photo, [get_file_id] returns the file id of the last entry of
    the size list, the largest size. *)
Theorem get_file_id_photo_largest (m : MediaMessage) (sizes : list (option pystr))
    (f : pystr) :
  content_type m = py "photo" ->
  lookup_media (py "photo") (media_attrs m) = Some (MList (sizes ++ [Some f])) ->
  get_file_id m = Returns (Some f).
Proof.
  intros Hc Hl. unfold get_file_id. rewrite Hc, Hl.
  rewrite rev_app_distr. reflexivity.
Qed.

Lemma get_file_id_photo_largest_witness :
  get_file_id {| content_type := py "photo";
                 media_attrs := [(py "photo", MList [Some (py "small"); Some (py "large")])] |}
  = Returns (Some (py "large")).
Proof.
  apply (get_file_id_photo_largest _ [Some (py "small")] (py "large")); reflexivity.
Defined.
